(** * Synthetic municipal finance series for the communes of New Caledonia

    A shallow embedding of the data-synthesis core of [NCom.py]
    (class [NouvelleCaledonieCommuneFinanceAnalyzer]): the configuration
    resolver, the per-column generators, the construction of the table and
    the event-adjustment pass [_add_municipal_trends].

    Modelling conventions.
    - Python floats are modelled by exact rationals ([Q]); value equalities
      are stated with [==] ([Qeq]).
    - The global NumPy generator is an explicit state [RNG] threaded through
      the generators; [np.random.normal] is a parameter [normal] of the
      development, so that "noise disabled" is a property of the sampler.
    - A date produced by [pd.date_range] is modelled by its [year], the only
      attribute the program reads.
    - Python dictionaries are [gmap]s keyed by strings; a missing key or a row
      label out of range ([KeyError]) is [None]. *)

From Stdlib Require Import QArith Lqa ZArith.
From stdpp Require Import gmap strings list fin_maps.

Local Open Scope Q_scope.

(** ** Locality configuration *)

Record commune_config := {
  population_base : Q;
  budget_base : Q;
  type : string;
  specialites : list string
}.

(** The literal dictionary [configs] of [_get_commune_config]. *)
Definition configs : gmap string commune_config :=
  list_to_map [
    ("Nouméa"%string,
      {| population_base := 100000; budget_base := 180; type := "urbaine";
         specialites := ["administration"; "commerce"; "tourisme"; "port"; "services"]%string |});
    ("Mont-Dore"%string,
      {| population_base := 28000; budget_base := 75; type := "periurbaine";
         specialites := ["tourisme"; "nature"; "agriculture"; "reservoir_eau"]%string |});
    ("Dumbéa"%string,
      {| population_base := 35000; budget_base := 85; type := "periurbaine";
         specialites := ["zones_activites"; "commerce"; "services"; "education"]%string |});
    ("Païta"%string,
      {| population_base := 25000; budget_base := 70; type := "periurbaine";
         specialites := ["aeroport"; "logistique"; "commerce"; "agriculture"]%string |});
    ("Koné"%string,
      {| population_base := 8000; budget_base := 50; type := "rurale";
         specialites := ["administration_nord"; "mine"; "agriculture"; "elevage"]%string |});
    ("Bourail"%string,
      {| population_base := 5500; budget_base := 45; type := "rurale";
         specialites := ["agriculture"; "elevage"; "tourisme"; "culture"]%string |});
    ("La Foa"%string,
      {| population_base := 3500; budget_base := 40; type := "rurale";
         specialites := ["agriculture"; "culture"; "tourisme"; "histoire"]%string |});
    ("Poindimié"%string,
      {| population_base := 5000; budget_base := 42; type := "cotiere";
         specialites := ["agriculture"; "peche"; "tourisme"; "culture_kanak"]%string |});
    ("Île des Pins"%string,
      {| population_base := 2000; budget_base := 35; type := "insulaire";
         specialites := ["tourisme"; "plages"; "culture"; "preservation"]%string |});
    ("default"%string,
      {| population_base := 3000; budget_base := 30; type := "rurale";
         specialites := ["agriculture"; "petit_commerce"; "services_locaux"]%string |})
  ].

(** [configs.get(self.commune, configs["default"])]: the subscript
    [configs["default"]] is evaluated first and raises [KeyError] ([None])
    when the key is absent; [get] itself never raises. *)
Definition _get_commune_config (commune : string) : option commune_config :=
  fallback ← configs !! "default"%string;
  Some (default fallback (configs !! commune)).

Record Analyzer := {
  commune : string;
  start_year : Z;
  end_year : Z;
  config : commune_config
}.

Definition __init__ (commune_name : string) : option Analyzer :=
  cfg ← _get_commune_config commune_name;
  Some {| commune := commune_name; start_year := 2002; end_year := 2025;
          config := cfg |}.

(** [pd.date_range(start=f'{start_year}-01-01', end=f'{end_year}-12-31',
    freq='Y')]: one year-end date per calendar year of the closed range, in
    ascending order; empty when the range is. This is what pandas returns
    for four-digit years inside the bounds of its timestamps, the years
    2002 and 2025 that [__init__] sets among them (see [supported_years]
    below). For other years pandas raises [OutOfBoundsDatetime] or reads the
    text of a short year as another date; neither is modelled, and the
    statements that let the range vary assume [supported_years]. *)
Definition date_range (start_year end_year : Z) : list Z :=
  seqZ start_year (end_year - start_year + 1).

(** ** The random source *)

Definition Gen (RNG A : Type) : Type := RNG → A * RNG.

Global Instance gen_ret {RNG} : MRet (Gen RNG) := λ A a s, (a, s).

Global Instance gen_bind {RNG} : MBind (Gen RNG) :=
  λ A B f m s, let r := m s in f (fst r) (snd r).

(** [out = []; for i, date in enumerate(dates): ...; out.append(body)]. *)
Fixpoint for_enumerate_from {RNG} (i : nat) (dates : list Z)
    (body : nat → Z → Gen RNG Q) : Gen RNG (list Q) :=
  match dates with
  | [] => mret []
  | date :: rest =>
      v ← body i date;
      vs ← for_enumerate_from (S i) rest body;
      mret (v :: vs)
  end.

Definition for_enumerate {RNG} (dates : list Z)
    (body : nat → Z → Gen RNG Q) : Gen RNG (list Q) :=
  for_enumerate_from 0 dates body.

(** The loop index [i] and the integer [year] as floats. *)
Definition float_of_nat (i : nat) : Q := inject_Z (Z.of_nat i).
Definition float (z : Z) : Q := inject_Z z.

(** [year in [y1, y2, ...]] and [s in self.config["specialites"]]. *)
Definition year_in (year : Z) (l : list Z) : bool := bool_decide (year ∈ l).
Definition str_in (s : string) (l : list string) : bool := bool_decide (s ∈ l).

(** A sampler without noise: the draw is the mean, whatever the deviation. *)
Definition no_noise : Q → Q → Gen unit Q := λ loc _, mret loc.

(** ** Per-column generators *)

Section Generators.
Context {RNG : Type}.
Variable normal : Q → Q → Gen RNG Q.
Variable self : Analyzer.

Definition _simulate_population (dates : list Z) : Gen RNG (list Q) :=
  let base_population := population_base (config self) in
  for_enumerate dates (λ i date,
    let growth_rate :=
      if String.eqb (type (config self)) "urbaine" then 0.018
      else if String.eqb (type (config self)) "periurbaine" then 0.022
      else if String.eqb (type (config self)) "insulaire" then 0.015
      else 0.012 in
    let growth := 1 + growth_rate * float_of_nat i in
    mret (base_population * growth)).

Definition _simulate_households (dates : list Z) : Gen RNG (list Q) :=
  let base_households := population_base (config self) / 2.7 in
  for_enumerate dates (λ i date,
    let growth := 1 + 0.015 * float_of_nat i in
    mret (base_households * growth)).

Definition _simulate_total_revenue (dates : list Z) : Gen RNG (list Q) :=
  let base_revenue := budget_base (config self) in
  for_enumerate dates (λ i date,
    let growth_rate :=
      if String.eqb (type (config self)) "urbaine" then 0.038
      else if String.eqb (type (config self)) "periurbaine" then 0.042
      else if String.eqb (type (config self)) "insulaire" then 0.035
      else 0.032 in
    let growth := 1 + growth_rate * float_of_nat i in
    noise ← normal 1 0.07;
    mret (base_revenue * growth * noise)).

Definition _simulate_tax_revenue (dates : list Z) : Gen RNG (list Q) :=
  let base_tax := budget_base (config self) * 0.45 in
  for_enumerate dates (λ i date,
    let growth := 1 + 0.028 * float_of_nat i in
    noise ← normal 1 0.08;
    mret (base_tax * growth * noise)).

Definition _simulate_state_grants (dates : list Z) : Gen RNG (list Q) :=
  let base_grants := budget_base (config self) * 0.25 in
  for_enumerate dates (λ i date,
    let year := date in
    let increase :=
      if (2010 <=? year)%Z then 1 + 0.01 * float (year - 2010) else 1 in
    noise ← normal 1 0.06;
    mret (base_grants * increase * noise)).

Definition _simulate_territorial_grants (dates : list Z) : Gen RNG (list Q) :=
  let base_grants := budget_base (config self) * 0.15 in
  for_enumerate dates (λ i date,
    let year := date in
    let increase :=
      if (2000 <=? year)%Z then 1 + 0.012 * float (year - 2000) else 1 in
    noise ← normal 1 0.08;
    mret (base_grants * increase * noise)).

Definition _simulate_other_revenue (dates : list Z) : Gen RNG (list Q) :=
  let base_other := budget_base (config self) * 0.15 in
  for_enumerate dates (λ i date,
    let growth := 1 + 0.026 * float_of_nat i in
    noise ← normal 1 0.09;
    mret (base_other * growth * noise)).

Definition _simulate_total_expenses (dates : list Z) : Gen RNG (list Q) :=
  let base_expenses := budget_base (config self) * 0.95 in
  for_enumerate dates (λ i date,
    let growth := 1 + 0.032 * float_of_nat i in
    noise ← normal 1 0.07;
    mret (base_expenses * growth * noise)).

Definition _simulate_operating_expenses (dates : list Z) : Gen RNG (list Q) :=
  let base_operating := budget_base (config self) * 0.60 in
  for_enumerate dates (λ i date,
    let growth := 1 + 0.026 * float_of_nat i in
    noise ← normal 1 0.06;
    mret (base_operating * growth * noise)).

Definition _simulate_investment_expenses (dates : list Z) : Gen RNG (list Q) :=
  let base_investment := budget_base (config self) * 0.35 in
  for_enumerate dates (λ i date,
    let year := date in
    let multiplier :=
      if year_in year [2006; 2012; 2018; 2023]%Z then 1.7
      else if year_in year [2008; 2014; 2020]%Z then 0.78
      else 1.0 in
    let growth := 1 + 0.024 * float_of_nat i in
    noise ← normal 1 0.16;
    mret (base_investment * growth * multiplier * noise)).

Definition _simulate_debt_charges (dates : list Z) : Gen RNG (list Q) :=
  let base_debt_charge := budget_base (config self) * 0.05 in
  for_enumerate dates (λ i date,
    let year := date in
    let increase :=
      if (2005 <=? year)%Z then 1 + 0.009 * float (year - 2005) else 1 in
    noise ← normal 1 0.10;
    mret (base_debt_charge * increase * noise)).

Definition _simulate_staff_costs (dates : list Z) : Gen RNG (list Q) :=
  let base_staff := budget_base (config self) * 0.40 in
  for_enumerate dates (λ i date,
    let growth := 1 + 0.027 * float_of_nat i in
    noise ← normal 1 0.05;
    mret (base_staff * growth * noise)).

Definition _simulate_gross_savings (dates : list Z) : Gen RNG (list Q) :=
  for_enumerate dates (λ i date,
    let base_saving := budget_base (config self) * 0.05 in
    let year := date in
    let improvement :=
      if (2010 <=? year)%Z then 1 + 0.01 * float (year - 2010) else 1 in
    noise ← normal 1 0.13;
    mret (base_saving * improvement * noise)).

Definition _simulate_total_debt (dates : list Z) : Gen RNG (list Q) :=
  let base_debt := budget_base (config self) * 0.65 in
  for_enumerate dates (λ i date,
    let year := date in
    let change :=
      if year_in year [2006; 2012; 2018; 2023]%Z then 1.25
      else if year_in year [2009; 2015; 2021]%Z then 0.9
      else 1.0 in
    noise ← normal 1 0.09;
    mret (base_debt * change * noise)).

Definition _simulate_debt_ratio (dates : list Z) : Gen RNG (list Q) :=
  for_enumerate dates (λ i date,
    let base_ratio := 0.60 in
    let year := date in
    let improvement :=
      if (2010 <=? year)%Z then 1 - 0.012 * float (year - 2010) else 1 in
    noise ← normal 1 0.07;
    mret (base_ratio * improvement * noise)).

Definition _simulate_tax_rate (dates : list Z) : Gen RNG (list Q) :=
  for_enumerate dates (λ i date,
    let base_rate := 0.95 in
    let year := date in
    let increase :=
      if (2010 <=? year)%Z then 1 + 0.004 * float (year - 2010) else 1 in
    noise ← normal 1 0.04;
    mret (base_rate * increase * noise)).

Definition _simulate_agriculture_investment (dates : list Z) : Gen RNG (list Q) :=
  let base_investment := budget_base (config self) * 0.05 in
  let multiplier :=
    if str_in "agriculture" (specialites (config self)) then 1.4 else 0.8 in
  for_enumerate dates (λ i date,
    let year := date in
    let year_multiplier :=
      if year_in year [2005; 2010; 2015; 2020]%Z then 1.9 else 1.0 in
    let growth := 1 + 0.03 * float_of_nat i in
    noise ← normal 1 0.15;
    mret (base_investment * growth * year_multiplier * multiplier * noise)).

Definition _simulate_tourism_investment (dates : list Z) : Gen RNG (list Q) :=
  let base_investment := budget_base (config self) * 0.06 in
  let multiplier :=
    if str_in "tourisme" (specialites (config self)) then 1.7 else 0.7 in
  for_enumerate dates (λ i date,
    let year := date in
    let year_multiplier :=
      if year_in year [2007; 2013; 2019; 2024]%Z then 1.9 else 1.0 in
    let growth := 1 + 0.035 * float_of_nat i in
    noise ← normal 1 0.17;
    mret (base_investment * growth * year_multiplier * multiplier * noise)).

Definition _simulate_transport_investment (dates : list Z) : Gen RNG (list Q) :=
  let base_investment := budget_base (config self) * 0.04 in
  let multiplier :=
    if str_in "transport" (specialites (config self)) then 1.5 else 0.9 in
  for_enumerate dates (λ i date,
    let year := date in
    let year_multiplier :=
      if year_in year [2006; 2012; 2018; 2023]%Z then 1.8 else 1.0 in
    let growth := 1 + 0.027 * float_of_nat i in
    noise ← normal 1 0.16;
    mret (base_investment * growth * year_multiplier * multiplier * noise)).

Definition _simulate_education_investment (dates : list Z) : Gen RNG (list Q) :=
  let base_investment := budget_base (config self) * 0.05 in
  let multiplier :=
    if str_in "education" (specialites (config self)) then 1.4 else 0.9 in
  for_enumerate dates (λ i date,
    let year := date in
    let year_multiplier :=
      if year_in year [2008; 2014; 2020]%Z then 1.7 else 1.0 in
    let growth := 1 + 0.028 * float_of_nat i in
    noise ← normal 1 0.19;
    mret (base_investment * growth * year_multiplier * multiplier * noise)).

Definition _simulate_environment_investment (dates : list Z) : Gen RNG (list Q) :=
  let base_investment := budget_base (config self) * 0.04 in
  let multiplier :=
    if str_in "environnement" (specialites (config self)) then 1.5 else 0.8 in
  for_enumerate dates (λ i date,
    let year := date in
    let year_multiplier :=
      if year_in year [2009; 2015; 2021]%Z then 2.0 else 1.0 in
    let growth := 1 + 0.032 * float_of_nat i in
    noise ← normal 1 0.18;
    mret (base_investment * growth * year_multiplier * multiplier * noise)).

Definition _simulate_culture_investment (dates : list Z) : Gen RNG (list Q) :=
  let base_investment := budget_base (config self) * 0.03 in
  let multiplier :=
    if str_in "culture" (specialites (config self)) then 1.6 else 0.7 in
  for_enumerate dates (λ i date,
    let year := date in
    let year_multiplier :=
      if year_in year [2010; 2016; 2022]%Z then 1.8 else 1.0 in
    let growth := 1 + 0.026 * float_of_nat i in
    noise ← normal 1 0.16;
    mret (base_investment * growth * year_multiplier * multiplier * noise)).

Definition _simulate_mining_investment (dates : list Z) : Gen RNG (list Q) :=
  let base_investment := budget_base (config self) * 0.04 in
  let multiplier :=
    if str_in "mine" (specialites (config self)) then 1.8 else 0.6 in
  for_enumerate dates (λ i date,
    let year := date in
    let year_multiplier :=
      if year_in year [2007; 2013; 2019; 2024]%Z then 2.1 else 1.0 in
    let growth := 1 + 0.038 * float_of_nat i in
    noise ← normal 1 0.22;
    mret (base_investment * growth * year_multiplier * multiplier * noise)).

End Generators.

(** ** The table *)

(** A [pd.DataFrame] over the default [RangeIndex]: the number of rows and
    the columns by name. The integer column ['Annee'] is stored with the
    float columns (as [iterrows] reads it, upcast to float). *)
Record DataFrame := {
  nrows : nat;
  columns : gmap string (list Q)
}.

(** [pd.DataFrame(data)] for a dictionary of lists: [ValueError] ([None])
    unless all the lists have one length, which is the number of rows. *)
Definition pd_DataFrame (data : gmap string (list Q)) : option DataFrame :=
  match map_to_list data with
  | [] => Some {| nrows := 0; columns := data |}
  | (_, values) :: _ =>
      let n := length values in
      if bool_decide (map_Forall (λ _ v, length v = n) data)
      then Some {| nrows := n; columns := data |}
      else None
  end.

(** The value at row [i] of column [col], when both exist. *)
Definition cell (df : DataFrame) (col : string) (i : nat) : option Q :=
  values ← columns df !! col; values !! i.

(** A row as [iterrows] yields it: a copy of the values of row [i]. *)
Abbreviation Series := (gmap string Q).

Definition iterrows (df : DataFrame) : list (nat * Series) :=
  (λ i, (i, omap (λ values : list Q, values !! i) (columns df))) <$> seq 0 (nrows df).

(** [df.loc[i, col] *= k]; [KeyError] when the column or the row is absent. *)
Definition loc_mul (i : nat) (col : string) (k : Q) (df : DataFrame)
    : option DataFrame :=
  values ← columns df !! col;
  v ← values !! i;
  Some {| nrows := nrows df;
          columns := <[col := <[i := v * k]> values]> (columns df) |}.

(** A block of [df.loc[i, col] *= k] statements, run in order. *)
Fixpoint run_block (i : nat) (block : list (string * Q)) (df : DataFrame)
    : option DataFrame :=
  match block with
  | [] => Some df
  | (col, k) :: rest => df' ← loc_mul i col k df; run_block i rest df'
  end.

(** [for i, row in rows: body]. *)
Fixpoint for_rows (rows : list (nat * Series))
    (body : nat → Series → DataFrame → option DataFrame) (df : DataFrame)
    : option DataFrame :=
  match rows with
  | [] => Some df
  | (i, row) :: rest => df' ← body i row df; for_rows rest body df'
  end.

(** [lo <= year <= hi] on floats. *)
Definition between (lo year hi : Q) : bool := Qle_bool lo year && Qle_bool year hi.

(** ** The event-adjustment pass *)

(** The body of the loop of [_add_municipal_trends] for a row of year
    [year]: the [*=] statements it runs, as (column, factor), in order. *)
Definition row_adjustments (year : Q) : list (string * Q) :=
  (if between 2002 year 2005 then
     [("Investissement_Agriculture"%string, 1.5);
      ("Investissement_Tourisme"%string, 1.4)]
   else [])
  ++
  (if between 2008 year 2009 then
     [("Recettes_Totales"%string, 0.94);
      ("Investissement"%string, 0.85);
      ("Autres_Recettes"%string, 0.88)]
   else if between 2010 year 2014 then
     [("Investissement_Mine"%string, 1.5);
      ("Dotations_Territoriales"%string, 1.3)]
   else [])
  ++
  (if Qle_bool 2010 year then
     let institutional_growth := 1 + 0.015 * (year - 2010) in
     [("Dotations_Etat"%string, institutional_growth)]
   else [])
  ++
  (if between 2020 year 2021 then
     if Qeq_bool year 2020 then
       [("Autres_Recettes"%string, 0.75);
        ("Investissement_Tourisme"%string, 0.88)]
     else []
   else [])
  ++
  (if Qle_bool 2010 year then
     let environment_growth := 1 + 0.034 * (year - 2010) in
     [("Investissement_Environnement"%string, environment_growth)]
   else [])
  ++
  (if Qle_bool 2022 year then
     [("Investissement"%string, 1.15);
      ("Investissement_Tourisme"%string, 1.2);
      ("Investissement_Mine"%string, 1.18)]
   else []).

(** [_add_municipal_trends]: mutates [df] in place; the model returns the
    mutated table. *)
Definition _add_municipal_trends (df : DataFrame) : option DataFrame :=
  for_rows (iterrows df) (λ i row df,
    year ← row !! "Annee"%string;
    run_block i (row_adjustments year) df) df.

(** ** Building the table *)

Section Generation.
Context {RNG : Type}.
Variable normal : Q → Q → Gen RNG Q.
Variable self : Analyzer.

(** The dictionary [data] of [generate_financial_data], filled column by
    column in the order of the source. *)
Definition generate_data : Gen RNG (gmap string (list Q)) :=
  let dates := date_range (start_year self) (end_year self) in
  let data : gmap string (list Q) := {[ "Annee"%string := float <$> dates ]} in
  v ← _simulate_population self dates;
  let data := <["Population"%string := v]> data in
  v ← _simulate_households self dates;
  let data := <["Menages"%string := v]> data in
  v ← _simulate_total_revenue normal self dates;
  let data := <["Recettes_Totales"%string := v]> data in
  v ← _simulate_tax_revenue normal self dates;
  let data := <["Impots_Locaux"%string := v]> data in
  v ← _simulate_state_grants normal self dates;
  let data := <["Dotations_Etat"%string := v]> data in
  v ← _simulate_territorial_grants normal self dates;
  let data := <["Dotations_Territoriales"%string := v]> data in
  v ← _simulate_other_revenue normal self dates;
  let data := <["Autres_Recettes"%string := v]> data in
  v ← _simulate_total_expenses normal self dates;
  let data := <["Depenses_Totales"%string := v]> data in
  v ← _simulate_operating_expenses normal self dates;
  let data := <["Fonctionnement"%string := v]> data in
  v ← _simulate_investment_expenses normal self dates;
  let data := <["Investissement"%string := v]> data in
  v ← _simulate_debt_charges normal self dates;
  let data := <["Charge_Dette"%string := v]> data in
  v ← _simulate_staff_costs normal self dates;
  let data := <["Personnel"%string := v]> data in
  v ← _simulate_gross_savings normal self dates;
  let data := <["Epargne_Brute"%string := v]> data in
  v ← _simulate_total_debt normal self dates;
  let data := <["Dette_Totale"%string := v]> data in
  v ← _simulate_debt_ratio normal dates;
  let data := <["Taux_Endettement"%string := v]> data in
  v ← _simulate_tax_rate normal dates;
  let data := <["Taux_Fiscalite"%string := v]> data in
  v ← _simulate_agriculture_investment normal self dates;
  let data := <["Investissement_Agriculture"%string := v]> data in
  v ← _simulate_tourism_investment normal self dates;
  let data := <["Investissement_Tourisme"%string := v]> data in
  v ← _simulate_transport_investment normal self dates;
  let data := <["Investissement_Transport"%string := v]> data in
  v ← _simulate_education_investment normal self dates;
  let data := <["Investissement_Education"%string := v]> data in
  v ← _simulate_environment_investment normal self dates;
  let data := <["Investissement_Environnement"%string := v]> data in
  v ← _simulate_culture_investment normal self dates;
  let data := <["Investissement_Culture"%string := v]> data in
  v ← _simulate_mining_investment normal self dates;
  let data := <["Investissement_Mine"%string := v]> data in
  mret data.

(** The table before the event-adjustment pass: [df = pd.DataFrame(data)]. *)
Definition generate_frame : Gen RNG (option DataFrame) :=
  data ← generate_data;
  mret (pd_DataFrame data).

Definition generate_financial_data : Gen RNG (option DataFrame) :=
  df ← generate_frame;
  mret (df ≫= _add_municipal_trends).

End Generation.

(** ** Notions used by the statements *)

(** Noise disabled: every Gaussian draw equals its mean (the noise factor of
    every series is 1). *)
Definition noise_disabled {RNG} (normal : Q → Q → Gen RNG Q) : Prop :=
  ∀ loc scale s, fst (normal loc scale s) = loc.

(** Two computations that return the same value from any two generator
    states. *)
Definition same_value {R1 R2 A} (m1 : Gen R1 A) (m2 : Gen R2 A) : Prop :=
  ∀ s1 s2, fst (m1 s1) = fst (m2 s2).

(** The factors a block applies to column [col], in order. *)
Fixpoint factors (col : string) (block : list (string * Q)) : list Q :=
  match block with
  | [] => []
  | (c, k) :: rest =>
      if String.eqb c col then k :: factors col rest else factors col rest
  end.

(** [v *= k1; v *= k2; ...]. *)
Definition scale (v : Q) (ks : list Q) : Q := foldl Qmult v ks.

(** The combined multiplier one application of the pass applies to the cell
    of column [col] in a row of year [year]. *)
Definition combined_multiplier (col : string) (year : Q) : Q :=
  scale 1 (factors col (row_adjustments year)).

(** The columns named in the rules of the pass. *)
Definition adjusted_columns : list string :=
  ["Recettes_Totales"; "Autres_Recettes"; "Investissement"; "Dotations_Etat";
   "Dotations_Territoriales"; "Investissement_Agriculture";
   "Investissement_Tourisme"; "Investissement_Mine";
   "Investissement_Environnement"]%string.

(** The other columns of the table. *)
Definition untouched_columns : list string :=
  ["Annee"; "Population"; "Menages"; "Impots_Locaux"; "Depenses_Totales";
   "Fonctionnement"; "Charge_Dette"; "Personnel"; "Epargne_Brute";
   "Dette_Totale"; "Taux_Endettement"; "Taux_Fiscalite";
   "Investissement_Transport"; "Investissement_Education";
   "Investissement_Culture"]%string.

(** The seven sectoral-investment series, with the specialty each one looks
    for and its column. *)
Inductive sector :=
  | Agriculture | Tourisme | Transport | Education | Environnement | Culture
  | Mine.

Definition sector_specialty (sec : sector) : string :=
  match sec with
  | Agriculture => "agriculture" | Tourisme => "tourisme"
  | Transport => "transport" | Education => "education"
  | Environnement => "environnement" | Culture => "culture"
  | Mine => "mine"
  end.

Definition sector_series {RNG} (normal : Q → Q → Gen RNG Q) (self : Analyzer)
    (sec : sector) : list Z → Gen RNG (list Q) :=
  match sec with
  | Agriculture => _simulate_agriculture_investment normal self
  | Tourisme => _simulate_tourism_investment normal self
  | Transport => _simulate_transport_investment normal self
  | Education => _simulate_education_investment normal self
  | Environnement => _simulate_environment_investment normal self
  | Culture => _simulate_culture_investment normal self
  | Mine => _simulate_mining_investment normal self
  end.

(** The constants of the seven series, tabulated: the share of the budget
    base, the yearly growth rate, the peak years and their multiplier, and
    the specialty multiplier when the specialty is present and when it is
    absent. [sector_value] is the value of row [i], of year [year], with a
    noise factor of 1; [sector_series_lookup] below shows that the generators
    compute it. *)
Definition sector_share (sec : sector) : Q :=
  match sec with
  | Agriculture => 0.05 | Tourisme => 0.06 | Transport => 0.04
  | Education => 0.05 | Environnement => 0.04 | Culture => 0.03
  | Mine => 0.04
  end.

Definition sector_rate (sec : sector) : Q :=
  match sec with
  | Agriculture => 0.03 | Tourisme => 0.035 | Transport => 0.027
  | Education => 0.028 | Environnement => 0.032 | Culture => 0.026
  | Mine => 0.038
  end.

Definition sector_years (sec : sector) : list Z :=
  match sec with
  | Agriculture => [2005; 2010; 2015; 2020]
  | Tourisme => [2007; 2013; 2019; 2024]
  | Transport => [2006; 2012; 2018; 2023]
  | Education => [2008; 2014; 2020]
  | Environnement => [2009; 2015; 2021]
  | Culture => [2010; 2016; 2022]
  | Mine => [2007; 2013; 2019; 2024]
  end%Z.

Definition sector_peak (sec : sector) : Q :=
  match sec with
  | Agriculture => 1.9 | Tourisme => 1.9 | Transport => 1.8
  | Education => 1.7 | Environnement => 2.0 | Culture => 1.8
  | Mine => 2.1
  end.

Definition sector_present (sec : sector) : Q :=
  match sec with
  | Agriculture => 1.4 | Tourisme => 1.7 | Transport => 1.5
  | Education => 1.4 | Environnement => 1.5 | Culture => 1.6
  | Mine => 1.8
  end.

Definition sector_absent (sec : sector) : Q :=
  match sec with
  | Agriculture => 0.8 | Tourisme => 0.7 | Transport => 0.9
  | Education => 0.9 | Environnement => 0.8 | Culture => 0.7
  | Mine => 0.6
  end.

(** The part of a value that does not depend on the specialties. *)
Definition sector_unscaled (self : Analyzer) (sec : sector) (i : nat)
    (year : Z) : Q :=
  budget_base (config self) * sector_share sec
  * (1 + sector_rate sec * float_of_nat i)
  * (if year_in year (sector_years sec) then sector_peak sec else 1.0).

Definition sector_value (self : Analyzer) (sec : sector) (i : nat)
    (year : Z) : Q :=
  sector_unscaled self sec i year
  * (if str_in (sector_specialty sec) (specialites (config self))
     then sector_present sec else sector_absent sec)
  * 1.

(** Every value of a table is non-negative (decided cell by cell). *)
Definition nonneg_frame (df : DataFrame) : bool :=
  bool_decide (map_Forall (λ _ values, forallb (Qle_bool 0) values = true)
                 (columns df)).

(** The analyzer of a configuration over the fixed period of [__init__]. *)
Definition analyzer_of (name : string) (cfg : commune_config) : Analyzer :=
  {| commune := name; start_year := 2002; end_year := 2025; config := cfg |}.

(** The tables of a run without noise: before the pass, after it, and after
    a second application. *)
Definition frame_without_noise (self : Analyzer) : option DataFrame :=
  fst (generate_frame no_noise self tt).

Definition table_without_noise (self : Analyzer) : option DataFrame :=
  fst (generate_financial_data no_noise self tt).

(** The configurations on file, the default one included. *)
Definition known_configs : list commune_config := (map_to_list configs).*2.

(** The record under the key ["default"]. *)
Definition default_config : commune_config :=
  {| population_base := 3000; budget_base := 30; type := "rurale";
     specialites := ["agriculture"; "petit_commerce"; "services_locaux"]%string |}.

(** The configuration on file for Koné, and its analyzer. *)
Definition kone_config : commune_config :=
  {| population_base := 8000; budget_base := 50; type := "rurale";
     specialites := ["administration_nord"; "mine"; "agriculture"; "elevage"]%string |}.

Definition kone : Analyzer := analyzer_of "Koné" kone_config.

(** The tables of Koné in a run without noise, before and after the pass
    (the empty table stands for a failed generation). *)
Definition empty_frame : DataFrame := {| nrows := 0; columns := ∅ |}.

Definition kone_frame : DataFrame :=
  default empty_frame (frame_without_noise kone).

Definition kone_table : DataFrame :=
  default empty_frame (table_without_noise kone).

Definition kone_table_twice : DataFrame :=
  default empty_frame (_add_municipal_trends kone_table).

(** Koné without its specialties. *)
Definition kone_plain : Analyzer :=
  analyzer_of "Koné"
    {| population_base := 8000; budget_base := 50; type := "rurale";
       specialites := [] |}.

(** Both tables of the run without noise exist and hold no negative value. *)
Definition nonneg_run (name : string) (cfg : commune_config) : bool :=
  match frame_without_noise (analyzer_of name cfg),
        table_without_noise (analyzer_of name cfg) with
  | Some raw, Some final => nonneg_frame raw && nonneg_frame final
  | _, _ => false
  end.

(** A second application of the pass to the table of the run without noise
    changes the agriculture investment of the first row. *)
Definition second_pass_differs (name : string) (cfg : commune_config) : bool :=
  match table_without_noise (analyzer_of name cfg) with
  | Some once =>
      match _add_municipal_trends once with
      | Some twice =>
          match cell once "Investissement_Agriculture" 0,
                cell twice "Investissement_Agriculture" 0 with
          | Some a, Some b => negb (Qeq_bool a b)
          | _, _ => false
          end
      | None => false
      end
  | None => false
  end.

(** ** The report *)

(** A float computed by the report: a finite value, or NaN or an infinity
    (the mean of an empty column, a division by zero; NumPy raises on
    neither). In [_generate_financial_insights] a denominator that is not
    finite can only be NaN, so a quotient with one is not finite either. *)
Inductive float_value :=
  | Finite (q : Q)
  | NotFinite.

(** [Series.mean()]. *)
Definition series_mean (values : list Q) : float_value :=
  match values with
  | [] => NotFinite
  | _ :: _ => Finite (foldr Qplus 0 values / float_of_nat (length values))
  end.

Definition float_div (a b : float_value) : float_value :=
  match a, b with
  | Finite x, Finite y => if Qeq_bool y 0 then NotFinite else Finite (x / y)
  | _, _ => NotFinite
  end.

Definition float_map (f : Q → Q) (a : float_value) : float_value :=
  match a with
  | Finite x => Finite (f x)
  | NotFinite => NotFinite
  end.

(** The numbers and the recommendations [_generate_financial_insights]
    prints (the formatting of the numbers is not modelled). *)
Record Insights := {
  avg_revenue : float_value;
  avg_expenses : float_value;
  avg_savings : float_value;
  avg_debt : float_value;
  revenue_growth : float_value;
  population_growth : float_value;
  tax_share : float_value;
  state_share : float_value;
  territorial_share : float_value;
  investment_share : float_value;
  avg_debt_ratio : float_value;
  avg_tax_rate : float_value;
  last_debt_ratio : float_value;
  recommendations : list string
}.

(** Section 7 of the report. *)
Definition strategic_recommendations (self : Analyzer) : list string :=
  (if str_in "mine" (specialites (config self)) then
     ["• Diversifier l'économie minière et développer la transformation locale";
      "• Investir dans l'innovation minière durable"]%string
   else [])
  ++
  (if str_in "tourisme" (specialites (config self)) then
     ["• Développer le tourisme haut de gamme et l'écotourisme";
      "• Valoriser les atouts naturels (lagons, biodiversité)"]%string
   else [])
  ++
  (if str_in "agriculture" (specialites (config self)) then
     ["• Moderniser l'agriculture et développer les filières locales";
      "• Valoriser les produits du terroir"]%string
   else [])
  ++
  ["• Améliorer les infrastructures de transport et de mobilité";
   "• Préserver l'environnement et la biodiversité exceptionnelle";
   "• Renforcer les services publics (santé, éducation)";
   "• Développer le numérique et les services innovants"]%string.

(** [df[col]] is [columns df !! col] ([KeyError] when absent); [.iloc[0]]
    and [.iloc[-1]] are [head] and [last] ([IndexError] on an empty
    column). *)
Definition _generate_financial_insights (self : Analyzer) (df : DataFrame)
    : option Insights :=
  recettes ← columns df !! "Recettes_Totales"%string;
  depenses ← columns df !! "Depenses_Totales"%string;
  epargne ← columns df !! "Epargne_Brute"%string;
  dette ← columns df !! "Dette_Totale"%string;
  recettes_last ← last recettes;
  recettes_first ← head recettes;
  population ← columns df !! "Population"%string;
  population_last ← last population;
  population_first ← head population;
  impots ← columns df !! "Impots_Locaux"%string;
  dotations_etat ← columns df !! "Dotations_Etat"%string;
  dotations_territoriales ← columns df !! "Dotations_Territoriales"%string;
  investissement ← columns df !! "Investissement"%string;
  taux_endettement ← columns df !! "Taux_Endettement"%string;
  taux_fiscalite ← columns df !! "Taux_Fiscalite"%string;
  taux_endettement_last ← last taux_endettement;
  Some {|
    avg_revenue := series_mean recettes;
    avg_expenses := series_mean depenses;
    avg_savings := series_mean epargne;
    avg_debt := series_mean dette;
    revenue_growth :=
      float_map (λ q, (q - 1) * 100)
        (float_div (Finite recettes_last) (Finite recettes_first));
    population_growth :=
      float_map (λ q, (q - 1) * 100)
        (float_div (Finite population_last) (Finite population_first));
    tax_share :=
      float_map (λ q, q * 100)
        (float_div (series_mean impots) (series_mean recettes));
    state_share :=
      float_map (λ q, q * 100)
        (float_div (series_mean dotations_etat) (series_mean recettes));
    territorial_share :=
      float_map (λ q, q * 100)
        (float_div (series_mean dotations_territoriales) (series_mean recettes));
    investment_share :=
      float_map (λ q, q * 100)
        (float_div (series_mean investissement) (series_mean depenses));
    avg_debt_ratio := float_map (λ q, q * 100) (series_mean taux_endettement);
    avg_tax_rate := series_mean taux_fiscalite;
    last_debt_ratio := Finite (taux_endettement_last * 100);
    recommendations := strategic_recommendations self
  |}.

(** ** The selection of a locality in [main] *)

Definition communes : list string :=
  ["Nouméa"; "Mont-Dore"; "Dumbéa"; "Païta"; "Bouloupari";
   "La Foa"; "Sarraméa"; "Farino"; "Moindou"; "Bourail";
   "Poya"; "Pouembout"; "Koné"; "Voh"; "Kaala-Gomen";
   "Koumac"; "Poum"; "Belep"; "Ouégoa"; "Pouébo";
   "Hienghène"; "Touho"; "Poindimié"; "Ponérihouen"; "Houaïlou";
   "Kouaoua"; "Canala"; "Thio"; "Yaté"; "Île des Pins";
   "Maré"; "Lifou"; "Ouvéa"]%string.

(** The [try] block of [main]. [choix] is the outcome of
    [int(input(...))]: [None] when the text is not an integer
    ([ValueError]); [ValueError] and [IndexError] select Nouméa. The end
    of the input ([EOFError]), which the block does not catch, is not
    modelled. *)
Definition commune_selectionnee (choix : option Z) : string :=
  match choix with
  | None => "Nouméa"
  | Some choix =>
      if (choix <? 1)%Z || (Z.of_nat (length communes) <? choix)%Z
      then "Nouméa"
      else default "Nouméa"%string (communes !! Z.to_nat (choix - 1))
  end.

(** ** Further notions used by the statements *)

(** The yearly growth rates by type of locality, as the if-chains of
    [_simulate_population] and [_simulate_total_revenue] choose them. *)
Definition population_rate (ty : string) : Q :=
  if String.eqb ty "urbaine" then 0.018
  else if String.eqb ty "periurbaine" then 0.022
  else if String.eqb ty "insulaire" then 0.015
  else 0.012.

Definition revenue_rate (ty : string) : Q :=
  if String.eqb ty "urbaine" then 0.038
  else if String.eqb ty "periurbaine" then 0.042
  else if String.eqb ty "insulaire" then 0.035
  else 0.032.

(** Both base amounts of a configuration are positive and its type is one
    of the five categories. *)
Definition well_formed_config (cfg : commune_config) : bool :=
  negb (Qle_bool (population_base cfg) 0) && negb (Qle_bool (budget_base cfg) 0)
  && bool_decide (type cfg ∈
       ["urbaine"; "periurbaine"; "rurale"; "cotiere"; "insulaire"]%string).

(** In row [i], the four parts [a], [b], [c], [d] exist and do not sum to
    the value of the column [total]. *)
Definition parts_differ (df : DataFrame) (a b c d total : string) (i : nat)
    : bool :=
  match cell df a i, cell df b i, cell df c i, cell df d i, cell df total i with
  | Some va, Some vb, Some vc, Some vd, Some vt =>
      negb (Qeq_bool (va + vb + vc + vd) vt)
  | _, _, _, _, _ => false
  end.

(** In no row of the delivered table without noise do the revenue
    components sum to the total revenue, nor the expense components to the
    total expense. *)
Definition totals_never_match (name : string) (cfg : commune_config) : bool :=
  match table_without_noise (analyzer_of name cfg) with
  | Some df =>
      forallb (λ i,
          parts_differ df "Impots_Locaux" "Dotations_Etat"
            "Dotations_Territoriales" "Autres_Recettes" "Recettes_Totales" i
          && parts_differ df "Fonctionnement" "Investissement" "Charge_Dette"
               "Personnel" "Depenses_Totales" i)
        (seq 0 (nrows df))
  | None => false
  end.

(** The revenue growth the report prints for the table without noise is
    2300 times the revenue rate of the type of the locality. *)
Definition revenue_growth_matches (name : string) (cfg : commune_config) : bool :=
  match table_without_noise (analyzer_of name cfg) with
  | Some df =>
      match _generate_financial_insights (analyzer_of name cfg) df with
      | Some report =>
          match revenue_growth report with
          | Finite v => Qeq_bool v (2300 * revenue_rate (type cfg))
          | NotFinite => false
          end
      | None => false
      end
  | None => false
  end.

(** The columns the report reads. *)
Definition report_columns : list string :=
  ["Recettes_Totales"; "Depenses_Totales"; "Epargne_Brute"; "Dette_Totale";
   "Population"; "Impots_Locaux"; "Dotations_Etat"; "Dotations_Territoriales";
   "Investissement"; "Taux_Endettement"; "Taux_Fiscalite"]%string.

(** [np.random.normal(loc, scale)] fed by a tape of standard normal draws:
    the draw [z] gives [loc + scale * z]; an exhausted tape gives the
    mean. *)
Definition tape_normal : Q → Q → Gen (list Q) Q :=
  λ loc scale tape,
    match tape with
    | z :: rest => (loc + scale * z, rest)
    | [] => (loc, [])
    end.

(** A computation that takes exactly [n] draws from the tape. *)
Definition consumes {A} (m : Gen (list Q) A) (n : nat) : Prop :=
  ∀ tape, snd (m tape) = drop n tape.

(** The analyzers whose range of years [date_range] models: four-digit
    years, taken well inside the bounds of a pandas timestamp (1677-09-21 to
    2262-04-11). *)
Definition supported_years (self : Analyzer) : Prop :=
  (1700 ≤ start_year self ≤ 2200)%Z ∧ (1700 ≤ end_year self ≤ 2200)%Z.

(** ** Examples used by the witnesses *)

(** Poindimié, the coastal locality on file, and the same locality typed
    as rural. *)
Definition poindimie : Analyzer :=
  analyzer_of "Poindimié"
    {| population_base := 5000; budget_base := 42; type := "cotiere";
       specialites := ["agriculture"; "peche"; "tourisme"; "culture_kanak"]%string |}.

(** An analyzer with its type replaced by ["rurale"]. *)
Definition as_rural (self : Analyzer) : Analyzer :=
  {| commune := commune self; start_year := start_year self;
     end_year := end_year self;
     config := {| population_base := population_base (config self);
                  budget_base := budget_base (config self);
                  type := "rurale";
                  specialites := specialites (config self) |} |}.

(** A one-row table without a year column, and a one-row table of year 2002
    that has only the year column. *)
Definition frame_without_year : DataFrame :=
  {| nrows := 1; columns := {[ "Population"%string := [8000] ]} |}.

Definition frame_year_only : DataFrame :=
  {| nrows := 1; columns := {[ "Annee"%string := [2002] ]} |}.

(** Koné over an empty range of years. *)
Definition kone_empty_range : Analyzer :=
  {| commune := "Koné"; start_year := 2026; end_year := 2025;
     config := kone_config |}.

(** * Properties *)

(** ** The configuration resolver *)

Lemma configs_default : configs !! "default"%string = Some default_config.
Proof. reflexivity. Qed.

Lemma get_commune_config_eq (name : string) :
  _get_commune_config name = Some (default default_config (configs !! name)).
Proof. unfold _get_commune_config. by rewrite configs_default. Qed.

Lemma get_commune_config_known (name : string) (cfg : commune_config) :
  _get_commune_config name = Some cfg → cfg ∈ known_configs.
Proof.
  rewrite get_commune_config_eq. intros [= <-].
  unfold known_configs. apply list_elem_of_fmap.
  destruct (configs !! name) as [c|] eqn:Hname; simpl.
  - exists (name, c). split; [done|]. by apply elem_of_map_to_list.
  - exists ("default"%string, default_config). split; [done|].
    apply elem_of_map_to_list, configs_default.
Qed.

Lemma init_eq (name : string) :
  __init__ name =
    Some (analyzer_of name (default default_config (configs !! name))).
Proof. unfold __init__. by rewrite get_commune_config_eq. Qed.

(** ** The year range *)

Lemma date_range_length (a b : Z) :
  length (date_range a b) = Z.to_nat (b - a + 1).
Proof. apply length_seqZ. Qed.

Lemma date_range_lookup (a b : Z) (i : nat) (y : Z) :
  date_range a b !! i = Some y ↔ y = (a + Z.of_nat i)%Z ∧ (a + Z.of_nat i ≤ b)%Z.
Proof. unfold date_range. rewrite lookup_seqZ. intuition lia. Qed.

(** ** The random source: values that do not depend on the state *)

Lemma same_value_ret {R1 R2 A} (a : A) :
  same_value (mret a : Gen R1 A) (mret a : Gen R2 A).
Proof. by intros s1 s2. Qed.

Lemma same_value_bind {R1 R2 A B} (m1 : Gen R1 A) (m2 : Gen R2 A)
    (f1 : A → Gen R1 B) (f2 : A → Gen R2 B) :
  same_value m1 m2 → (∀ a, same_value (f1 a) (f2 a)) →
  same_value (m1 ≫= f1) (m2 ≫= f2).
Proof.
  intros Hm Hf s1 s2. unfold mbind, gen_bind. cbv zeta.
  rewrite (Hm s1 s2). apply Hf.
Qed.

Lemma same_value_normal {R1 R2} (n1 : Q → Q → Gen R1 Q)
    (n2 : Q → Q → Gen R2 Q) (loc scale : Q) :
  noise_disabled n1 → noise_disabled n2 →
  same_value (n1 loc scale) (n2 loc scale).
Proof. intros H1 H2 s1 s2. by rewrite H1, H2. Qed.

Lemma same_value_for_enumerate_from {R1 R2} (b1 : nat → Z → Gen R1 Q)
    (b2 : nat → Z → Gen R2 Q) :
  (∀ i d, same_value (b1 i d) (b2 i d)) →
  ∀ dates k, same_value (for_enumerate_from k dates b1)
                        (for_enumerate_from k dates b2).
Proof.
  intros Hb dates. induction dates as [|d rest IH]; intros k; simpl.
  - apply same_value_ret.
  - apply same_value_bind; [apply Hb|]. intros v.
    apply same_value_bind; [apply IH|]. intros vs. apply same_value_ret.
Qed.

Lemma no_noise_disabled : noise_disabled no_noise.
Proof. by intros loc scale s. Qed.

Lemma for_enumerate_from_length {RNG} (body : nat → Z → Gen RNG Q)
    (dates : list Z) (k : nat) (s : RNG) :
  length (fst (for_enumerate_from k dates body s)) = length dates.
Proof.
  revert k s. induction dates as [|d rest IH]; intros k s; [done|].
  simpl. unfold mbind, gen_bind, mret, gen_ret. simpl. by rewrite IH.
Qed.

Lemma for_enumerate_from_lookup (body : nat → Z → Gen unit Q)
    (dates : list Z) (k : nat) (s : unit) (i : nat) :
  fst (for_enumerate_from k dates body s) !! i =
    (λ d, fst (body (k + i)%nat d tt)) <$> dates !! i.
Proof.
  revert k s i. induction dates as [|d rest IH]; intros k s i; [done|].
  simpl. unfold mbind, gen_bind, mret, gen_ret. simpl.
  destruct i as [|i]; simpl.
  - destruct s. by rewrite Nat.add_0_r.
  - rewrite IH. by rewrite Nat.add_succ_r.
Qed.

Lemma for_enumerate_lookup (body : nat → Z → Gen unit Q)
    (dates : list Z) (s : unit) (i : nat) :
  fst (for_enumerate dates body s) !! i =
    (λ d, fst (body i d tt)) <$> dates !! i.
Proof. apply for_enumerate_from_lookup. Qed.

(** ** The generators without noise *)

Ltac same_value_loop :=
  unfold for_enumerate; apply same_value_for_enumerate_from; intros ? ?;
  first
    [ apply same_value_ret
    | apply same_value_bind;
      [ by apply same_value_normal | intros ?; apply same_value_ret ] ].

Section SameValue.
Context {R1 R2 : Type}.
Variable n1 : Q → Q → Gen R1 Q.
Variable n2 : Q → Q → Gen R2 Q.
Hypothesis off1 : noise_disabled n1.
Hypothesis off2 : noise_disabled n2.
Variable self : Analyzer.

Lemma sector_series_same_value (sec : sector) (dates : list Z) :
  same_value (sector_series n1 self sec dates) (sector_series n2 self sec dates).
Proof.
  destruct sec; simpl;
    [ unfold _simulate_agriculture_investment
    | unfold _simulate_tourism_investment
    | unfold _simulate_transport_investment
    | unfold _simulate_education_investment
    | unfold _simulate_environment_investment
    | unfold _simulate_culture_investment
    | unfold _simulate_mining_investment ]; same_value_loop.
Qed.

Lemma generate_data_same_value :
  same_value (generate_data n1 self) (generate_data n2 self).
Proof.
  unfold generate_data. cbv zeta.
  apply same_value_bind;
    [unfold _simulate_population; same_value_loop | intros ?].
  apply same_value_bind;
    [unfold _simulate_households; same_value_loop | intros ?].
  apply same_value_bind;
    [unfold _simulate_total_revenue; same_value_loop | intros ?].
  apply same_value_bind;
    [unfold _simulate_tax_revenue; same_value_loop | intros ?].
  apply same_value_bind;
    [unfold _simulate_state_grants; same_value_loop | intros ?].
  apply same_value_bind;
    [unfold _simulate_territorial_grants; same_value_loop | intros ?].
  apply same_value_bind;
    [unfold _simulate_other_revenue; same_value_loop | intros ?].
  apply same_value_bind;
    [unfold _simulate_total_expenses; same_value_loop | intros ?].
  apply same_value_bind;
    [unfold _simulate_operating_expenses; same_value_loop | intros ?].
  apply same_value_bind;
    [unfold _simulate_investment_expenses; same_value_loop | intros ?].
  apply same_value_bind;
    [unfold _simulate_debt_charges; same_value_loop | intros ?].
  apply same_value_bind;
    [unfold _simulate_staff_costs; same_value_loop | intros ?].
  apply same_value_bind;
    [unfold _simulate_gross_savings; same_value_loop | intros ?].
  apply same_value_bind;
    [unfold _simulate_total_debt; same_value_loop | intros ?].
  apply same_value_bind;
    [unfold _simulate_debt_ratio; same_value_loop | intros ?].
  apply same_value_bind;
    [unfold _simulate_tax_rate; same_value_loop | intros ?].
  apply same_value_bind; [apply (sector_series_same_value Agriculture) | intros ?].
  apply same_value_bind; [apply (sector_series_same_value Tourisme) | intros ?].
  apply same_value_bind; [apply (sector_series_same_value Transport) | intros ?].
  apply same_value_bind; [apply (sector_series_same_value Education) | intros ?].
  apply same_value_bind; [apply (sector_series_same_value Environnement) | intros ?].
  apply same_value_bind; [apply (sector_series_same_value Culture) | intros ?].
  apply same_value_bind; [apply (sector_series_same_value Mine) | intros ?].
  apply same_value_ret.
Qed.

Lemma generate_frame_same_value :
  same_value (generate_frame n1 self) (generate_frame n2 self).
Proof.
  unfold generate_frame.
  apply same_value_bind; [apply generate_data_same_value | intros ?].
  apply same_value_ret.
Qed.

Lemma generate_financial_data_same_value :
  same_value (generate_financial_data n1 self) (generate_financial_data n2 self).
Proof.
  unfold generate_financial_data.
  apply same_value_bind; [apply generate_frame_same_value | intros ?].
  apply same_value_ret.
Qed.
End SameValue.

(** ** Tables and in-place updates *)

Lemma pd_DataFrame_Some (data : gmap string (list Q)) (n : nat)
    (c : string) (values : list Q) :
  data !! c = Some values →
  map_Forall (λ _ v, length v = n) data →
  pd_DataFrame data = Some {| nrows := n; columns := data |}.
Proof.
  intros Hc Hlen. unfold pd_DataFrame.
  destruct (map_to_list data) as [|[k v] l] eqn:E.
  - apply map_to_list_empty_iff in E. subst data. by rewrite lookup_empty in Hc.
  - assert (data !! k = Some v) as Hk.
    { apply elem_of_map_to_list. rewrite E. left. }
    cbv zeta. rewrite (Hlen k v Hk).
    by rewrite bool_decide_eq_true_2.
Qed.

Lemma loc_mul_inv (i : nat) (col : string) (k : Q) (df df' : DataFrame) :
  loc_mul i col k df = Some df' →
  ∃ values v, columns df !! col = Some values ∧ values !! i = Some v ∧
    df' = {| nrows := nrows df;
             columns := <[col := <[i := v * k]> values]> (columns df) |}.
Proof.
  unfold loc_mul. intros H.
  destruct (columns df !! col) as [values|] eqn:Hcol; [|done]. simpl in H.
  destruct (values !! i) as [v|] eqn:Hv; [|done]. simpl in H.
  injection H as <-. by exists values, v.
Qed.

Lemma loc_mul_Some (i : nat) (col : string) (k : Q) (df : DataFrame) (n : nat) :
  (length <$> columns df) !! col = Some n → (i < n)%nat →
  is_Some (loc_mul i col k df).
Proof.
  rewrite lookup_fmap. intros Hn Hi. unfold loc_mul.
  destruct (columns df !! col) as [values|]; [|done]. simpl in *.
  injection Hn as <-.
  destruct (lookup_lt_is_Some_2 values i Hi) as [v ->]. by eexists.
Qed.

Lemma loc_mul_shape (i : nat) (col : string) (k : Q) (df df' : DataFrame) :
  loc_mul i col k df = Some df' →
  nrows df' = nrows df ∧ length <$> columns df' = length <$> columns df.
Proof.
  intros (values & v & Hcol & Hv & ->)%loc_mul_inv. split; [done|]. simpl.
  rewrite fmap_insert, length_insert. apply insert_id.
  by rewrite lookup_fmap, Hcol.
Qed.

Lemma loc_mul_columns_ne (i : nat) (col c : string) (k : Q) (df df' : DataFrame) :
  loc_mul i col k df = Some df' → c ≠ col →
  columns df' !! c = columns df !! c.
Proof.
  intros (values & v & Hcol & Hv & ->)%loc_mul_inv Hne. simpl.
  by rewrite lookup_insert_ne.
Qed.

Lemma loc_mul_cell (i : nat) (col : string) (k : Q) (df df' : DataFrame)
    (c : string) (j : nat) :
  loc_mul i col k df = Some df' →
  cell df' c j =
    if decide (c = col ∧ j = i) then (λ v, v * k) <$> cell df c j
    else cell df c j.
Proof.
  intros (values & v & Hcol & Hv & ->)%loc_mul_inv. unfold cell. simpl.
  destruct (decide (c = col)) as [->|Hc].
  - rewrite lookup_insert_eq, Hcol. simpl.
    destruct (decide (j = i)) as [->|Hj].
    + rewrite decide_True by done.
      rewrite list_lookup_insert_eq by (by eapply lookup_lt_Some).
      by rewrite Hv.
    + rewrite decide_False by (intros [_ ?]; done).
      by rewrite list_lookup_insert_ne.
  - rewrite decide_False by (intros [? _]; done).
    by rewrite lookup_insert_ne.
Qed.

Lemma run_block_shape (i : nat) (block : list (string * Q)) (df df' : DataFrame) :
  run_block i block df = Some df' →
  nrows df' = nrows df ∧ length <$> columns df' = length <$> columns df.
Proof.
  revert df. induction block as [|[col k] rest IH]; intros df H; simpl in H.
  - by injection H as <-.
  - destruct (loc_mul i col k df) as [df1|] eqn:H1; [|done]. simpl in H.
    destruct (IH df1 H) as [-> ->]. by eapply loc_mul_shape.
Qed.

Lemma run_block_columns_ne (i : nat) (block : list (string * Q))
    (df df' : DataFrame) (c : string) :
  run_block i block df = Some df' → c ∉ block.*1 →
  columns df' !! c = columns df !! c.
Proof.
  revert df. induction block as [|[col k] rest IH]; intros df H Hc; simpl in H.
  - by injection H as <-.
  - destruct (loc_mul i col k df) as [df1|] eqn:H1; [|done]. simpl in H.
    rewrite fmap_cons, not_elem_of_cons in Hc. destruct Hc as [Hne Hc].
    rewrite (IH df1 H Hc). by eapply loc_mul_columns_ne.
Qed.

Lemma run_block_Some (i : nat) (block : list (string * Q)) (df : DataFrame) :
  (∀ c, c ∈ block.*1 → ∃ n, (length <$> columns df) !! c = Some n ∧ (i < n)%nat) →
  is_Some (run_block i block df).
Proof.
  revert df. induction block as [|[col k] rest IH]; intros df H; simpl.
  - by eexists.
  - destruct (H col) as (n & Hn & Hi); [rewrite fmap_cons; left|].
    destruct (loc_mul_Some i col k df n Hn Hi) as [df1 H1]. rewrite H1. simpl.
    apply IH. intros c Hc.
    destruct (loc_mul_shape _ _ _ _ _ H1) as [_ ->].
    apply H. rewrite fmap_cons. by right.
Qed.

Lemma scale_cons (v k : Q) (ks : list Q) : scale v (k :: ks) = scale (v * k) ks.
Proof. reflexivity. Qed.

Lemma run_block_cell (i : nat) (block : list (string * Q)) (df df' : DataFrame)
    (c : string) (j : nat) :
  run_block i block df = Some df' →
  cell df' c j =
    if decide (j = i) then (λ v, scale v (factors c block)) <$> cell df c j
    else cell df c j.
Proof.
  revert df. induction block as [|[col k] rest IH]; intros df H; simpl in H.
  - injection H as <-. case_decide; [|done]. simpl.
    by destruct (cell df c j).
  - destruct (loc_mul i col k df) as [df1|] eqn:H1; [|done]. simpl in H.
    rewrite (IH df1 H), (loc_mul_cell _ _ _ _ _ c j H1). simpl.
    destruct (decide (j = i)) as [->|Hj].
    + destruct (String.eqb_spec col c) as [->|Hne].
      * rewrite decide_True by done. by destruct (cell df c i).
      * rewrite decide_False by (intros [? _]; done). done.
    + rewrite decide_False by (intros [_ ?]; done). done.
Qed.

(** ** The event-adjustment pass *)

Lemma row_adjustments_columns (year : Q) :
  Forall (λ c, c ∈ adjusted_columns) (row_adjustments year).*1.
Proof.
  unfold row_adjustments.
  destruct (between 2002 year 2005), (between 2008 year 2009),
    (between 2010 year 2014), (Qle_bool 2010 year), (between 2020 year 2021),
    (Qeq_bool year 2020), (Qle_bool 2022 year);
    by (apply (bool_decide_unpack _); vm_compute).
Qed.

Lemma untouched_not_adjusted :
  Forall (λ c, c ∉ adjusted_columns) untouched_columns.
Proof. by (apply (bool_decide_unpack _); vm_compute). Qed.

Local Abbreviation trend_body :=
  (λ (i : nat) (row : Series) (df : DataFrame),
     year ← row !! "Annee"%string; run_block i (row_adjustments year) df).

Lemma for_rows_shape (rows : list (nat * Series)) (df df' : DataFrame) :
  for_rows rows trend_body df = Some df' →
  nrows df' = nrows df ∧ length <$> columns df' = length <$> columns df.
Proof.
  revert df. induction rows as [|[i row] rest IH]; intros df H; simpl in H.
  - by injection H as <-.
  - destruct (row !! "Annee"%string) as [year|]; [|done]. simpl in H.
    destruct (run_block i (row_adjustments year) df) as [df1|] eqn:H1; [|done].
    simpl in H. destruct (IH df1 H) as [-> ->]. by eapply run_block_shape.
Qed.

Lemma for_rows_columns_ne (rows : list (nat * Series)) (df df' : DataFrame)
    (c : string) :
  for_rows rows trend_body df = Some df' → c ∉ adjusted_columns →
  columns df' !! c = columns df !! c.
Proof.
  intros H Hc. revert df H.
  induction rows as [|[i row] rest IH]; intros df H; simpl in H.
  - by injection H as <-.
  - destruct (row !! "Annee"%string) as [year|]; [|done]. simpl in H.
    destruct (run_block i (row_adjustments year) df) as [df1|] eqn:H1; [|done].
    simpl in H. rewrite (IH df1 H).
    eapply run_block_columns_ne; [done|]. intros Hin. apply Hc.
    by eapply (proj1 (Forall_forall _ _) (row_adjustments_columns year)).
Qed.

Lemma for_rows_Some (rows : list (nat * Series)) (df : DataFrame) :
  (∀ i row, (i, row) ∈ rows → is_Some (row !! "Annee"%string)) →
  (∀ i row c, (i, row) ∈ rows → c ∈ adjusted_columns →
     ∃ n, (length <$> columns df) !! c = Some n ∧ (i < n)%nat) →
  is_Some (for_rows rows trend_body df).
Proof.
  revert df. induction rows as [|[i row] rest IH]; intros df Hy Hc; simpl.
  - by eexists.
  - destruct (Hy i row) as [year ->]; [left|]. simpl.
    destruct (run_block_Some i (row_adjustments year) df) as [df1 H1].
    { intros c Hin. apply (Hc i row); [left|].
      by eapply (proj1 (Forall_forall _ _) (row_adjustments_columns year)). }
    rewrite H1. simpl. apply IH.
    + intros j r Hin. apply (Hy j r). by right.
    + intros j r c Hin Hadj.
      destruct (run_block_shape _ _ _ _ H1) as [_ ->].
      apply (Hc j r); [by right|done].
Qed.

Lemma for_rows_cell (rows : list (nat * Series)) (df df' : DataFrame)
    (c : string) (j : nat) :
  NoDup rows.*1 →
  for_rows rows trend_body df = Some df' →
  (j ∉ rows.*1 → cell df' c j = cell df c j) ∧
  (∀ row year, (j, row) ∈ rows → row !! "Annee"%string = Some year →
     cell df' c j =
       (λ v, scale v (factors c (row_adjustments year))) <$> cell df c j).
Proof.
  revert df. induction rows as [|[i row] rest IH]; intros df Hnd H; simpl in H.
  - injection H as <-. split; [done|]. intros row year Hin. by inversion Hin.
  - rewrite fmap_cons in Hnd. apply NoDup_cons in Hnd as [Hi Hnd].
    destruct (row !! "Annee"%string) as [year|] eqn:Hyear; [|done]. simpl in H.
    destruct (run_block i (row_adjustments year) df) as [df1|] eqn:H1; [|done].
    simpl in H. destruct (IH df1 Hnd H) as [IHout IHin].
    pose proof (run_block_cell _ _ _ _ c j H1) as Hcell.
    split.
    + rewrite fmap_cons, not_elem_of_cons. intros [Hne Hout].
      rewrite (IHout Hout), Hcell. by rewrite decide_False.
    + intros row' year' Hin Hyear'.
      apply elem_of_cons in Hin as [[= -> ->]|Hin].
      * rewrite (IHout Hi), Hcell. rewrite decide_True by done.
        by replace year' with year by congruence.
      * rewrite (IHin row' year' Hin Hyear'), Hcell.
        rewrite decide_False; [done|]. intros ->. apply Hi.
        apply list_elem_of_fmap. by exists (i, row').
Qed.

Lemma iterrows_indices (df : DataFrame) : (iterrows df).*1 = seq 0 (nrows df).
Proof.
  unfold iterrows. rewrite <-list_fmap_compose.
  by rewrite <-(list_fmap_id (seq 0 (nrows df))) at 2.
Qed.

Lemma iterrows_elem (df : DataFrame) (j : nat) (row : Series) :
  (j, row) ∈ iterrows df ↔
    (j < nrows df)%nat ∧ row = omap (λ values : list Q, values !! j) (columns df).
Proof.
  unfold iterrows. rewrite list_elem_of_fmap. split.
  - intros (i & [= -> ->] & Hi). apply elem_of_seq in Hi. split; [lia|done].
  - intros [Hj ->]. exists j. split; [done|]. apply elem_of_seq. lia.
Qed.

Lemma iterrows_lookup (df : DataFrame) (j : nat) (row : Series) (c : string) :
  (j, row) ∈ iterrows df → row !! c = cell df c j.
Proof. intros [_ ->]%iterrows_elem. by rewrite lookup_omap. Qed.

Lemma pass_shape (df df' : DataFrame) :
  _add_municipal_trends df = Some df' →
  nrows df' = nrows df ∧ length <$> columns df' = length <$> columns df.
Proof. apply for_rows_shape. Qed.

Lemma pass_columns_ne (df df' : DataFrame) (c : string) :
  _add_municipal_trends df = Some df' → c ∉ adjusted_columns →
  columns df' !! c = columns df !! c.
Proof. apply for_rows_columns_ne. Qed.

Lemma pass_cell (df df' : DataFrame) (c : string) (j : nat) (year : Q) :
  _add_municipal_trends df = Some df' →
  (j < nrows df)%nat → cell df "Annee" j = Some year →
  cell df' c j =
    (λ v, scale v (factors c (row_adjustments year))) <$> cell df c j.
Proof.
  intros H Hj Hyear.
  pose proof (for_rows_cell (iterrows df) df df' c j) as [_ Hin].
  { rewrite iterrows_indices. apply NoDup_seq. }
  { exact H. }
  apply (Hin (omap (λ values : list Q, values !! j) (columns df))).
  - by apply iterrows_elem.
  - by rewrite lookup_omap.
Qed.

Lemma pass_cell_out (df df' : DataFrame) (c : string) (j : nat) :
  _add_municipal_trends df = Some df' → (nrows df ≤ j)%nat →
  cell df' c j = cell df c j.
Proof.
  intros H Hj.
  pose proof (for_rows_cell (iterrows df) df df' c j) as [Hout _].
  { rewrite iterrows_indices. apply NoDup_seq. }
  { exact H. }
  apply Hout. rewrite iterrows_indices, elem_of_seq. lia.
Qed.

(** The pass completes on every table that has its columns, each as long
    as the index. *)
Lemma pass_Some (df : DataFrame) :
  (∀ c, c ∈ "Annee"%string :: adjusted_columns →
     ∃ values, columns df !! c = Some values ∧ (nrows df ≤ length values)%nat) →
  is_Some (_add_municipal_trends df).
Proof.
  intros Hcols. apply for_rows_Some.
  - intros i row Hin. rewrite (iterrows_lookup _ _ _ _ Hin).
    apply iterrows_elem in Hin as [Hi _].
    destruct (Hcols "Annee"%string) as (values & Hv & Hlen); [left|].
    unfold cell. rewrite Hv. simpl. apply lookup_lt_is_Some_2. lia.
  - intros i row c Hin Hadj. apply iterrows_elem in Hin as [Hi _].
    destruct (Hcols c) as (values & Hv & Hlen); [by right|].
    exists (length values). rewrite lookup_fmap, Hv. split; [done|lia].
Qed.

(** ** The generated table *)

Lemma gen_bind_post {RNG A B} (m : Gen RNG A) (f : A → Gen RNG B)
    (PA : A → Prop) (PB : B → Prop) :
  (∀ s, PA (fst (m s))) → (∀ a, PA a → ∀ s, PB (fst (f a s))) →
  ∀ s, PB (fst ((m ≫= f) s)).
Proof. intros Hm Hf s. unfold mbind, gen_bind. cbv zeta. apply Hf, Hm. Qed.

Ltac series_length :=
  intros ?; apply for_enumerate_from_length.

Lemma data_columns_present (annee v1 v2 v3 v4 v5 v6 v7 v8 v9 v10 v11 v12 v13
    v14 v15 v16 v17 v18 v19 v20 v21 v22 v23 : list Q) :
  Forall (λ c : string, is_Some (
    (<["Investissement_Mine"%string := v23]>
    (<["Investissement_Culture"%string := v22]>
    (<["Investissement_Environnement"%string := v21]>
    (<["Investissement_Education"%string := v20]>
    (<["Investissement_Transport"%string := v19]>
    (<["Investissement_Tourisme"%string := v18]>
    (<["Investissement_Agriculture"%string := v17]>
    (<["Taux_Fiscalite"%string := v16]>
    (<["Taux_Endettement"%string := v15]>
    (<["Dette_Totale"%string := v14]>
    (<["Epargne_Brute"%string := v13]>
    (<["Personnel"%string := v12]>
    (<["Charge_Dette"%string := v11]>
    (<["Investissement"%string := v10]>
    (<["Fonctionnement"%string := v9]>
    (<["Depenses_Totales"%string := v8]>
    (<["Autres_Recettes"%string := v7]>
    (<["Dotations_Territoriales"%string := v6]>
    (<["Dotations_Etat"%string := v5]>
    (<["Impots_Locaux"%string := v4]>
    (<["Recettes_Totales"%string := v3]>
    (<["Menages"%string := v2]>
    (<["Population"%string := v1]>
    ({[ "Annee"%string := annee ]} : gmap string (list Q))))))))))))))))))))))))) !! c))
    ("Annee"%string :: adjusted_columns ++ untouched_columns).
Proof.
  unfold adjusted_columns, untouched_columns. cbn [app].
  repeat (constructor; [eexists; vm_compute; reflexivity|]). constructor.
Qed.

Section Generated.
Context {RNG : Type}.
Variable normal : Q → Q → Gen RNG Q.
Variable self : Analyzer.

Local Abbreviation dates := (date_range (start_year self) (end_year self)).

Lemma generate_data_columns (s : RNG) :
  map_Forall (λ _ v, length v = length dates) (fst (generate_data normal self s)) ∧
  Forall (λ c, is_Some (fst (generate_data normal self s) !! c))
    ("Annee"%string :: adjusted_columns ++ untouched_columns).
Proof.
  set (P := λ data : gmap string (list Q),
    map_Forall (λ _ v, length v = length dates) data ∧
    Forall (λ c, is_Some (data !! c))
      ("Annee"%string :: adjusted_columns ++ untouched_columns)).
  change (P (fst (generate_data normal self s))).
  revert s. unfold generate_data. cbv zeta.
  do 23 (eapply (gen_bind_post _ _ (λ v, length v = length dates));
         [series_length | intros ? ?]).
  intros s. unfold P, mret, gen_ret. cbn [fst]. split.
  - repeat (apply map_Forall_insert_2; [assumption|]).
    apply map_Forall_singleton. by rewrite length_fmap.
  - apply data_columns_present.
Qed.

Lemma generate_data_annee (s : RNG) :
  fst (generate_data normal self s) !! "Annee"%string = Some (float <$> dates).
Proof.
  set (P := λ data : gmap string (list Q),
    data !! "Annee"%string = Some (float <$> dates)).
  change (P (fst (generate_data normal self s))).
  revert s. unfold generate_data. cbv zeta.
  do 23 (eapply (gen_bind_post _ _ (λ _, True)); [done | intros ? _]).
  intros s. unfold P, mret, gen_ret. cbn [fst]. repeat (rewrite lookup_insert_ne by done).
  apply lookup_singleton_eq.
Qed.

Lemma generate_frame_eq (s : RNG) :
  fst (generate_frame normal self s) =
    Some {| nrows := length dates;
            columns := fst (generate_data normal self s) |}.
Proof.
  unfold generate_frame, mbind, gen_bind, mret, gen_ret. cbv zeta. cbn [fst].
  destruct (generate_data_columns s) as [Hlen _].
  eapply pd_DataFrame_Some; [apply generate_data_annee | done].
Qed.

Lemma generate_financial_data_eq (s : RNG) :
  fst (generate_financial_data normal self s) =
    fst (generate_frame normal self s) ≫= _add_municipal_trends.
Proof. reflexivity. Qed.

(** Generation completes, whatever the sampler draws. *)
Lemma generate_financial_data_Some (s : RNG) :
  ∃ raw final,
    fst (generate_frame normal self s) = Some raw ∧
    fst (generate_financial_data normal self s) = Some final ∧
    _add_municipal_trends raw = Some final ∧
    nrows raw = length dates ∧
    columns raw = fst (generate_data normal self s).
Proof.
  rewrite generate_financial_data_eq, generate_frame_eq.
  set (raw := {| nrows := length dates; columns := _ |}).
  destruct (pass_Some raw) as [final Hfinal].
  { intros c Hc. destruct (generate_data_columns s) as [Hlen Hpres].
    assert (is_Some (columns raw !! c)) as [values Hv].
    { apply (proj1 (Forall_forall _ _) Hpres).
      rewrite app_comm_cons. apply elem_of_app. by left. }
    exists values. split; [done|]. unfold raw. cbn [nrows].
    by rewrite (Hlen c values Hv). }
  exists raw, final. split_and!; [reflexivity | exact Hfinal | exact Hfinal
                                  | reflexivity | reflexivity].
Qed.
End Generated.

(** ** Closed forms without noise *)

Section ClosedForms.
Context {RNG : Type}.
Variable normal : Q → Q → Gen RNG Q.
Hypothesis noise_off : noise_disabled normal.
Variable self : Analyzer.

Lemma sector_series_lookup (sec : sector) (dates : list Z) (s : RNG) (i : nat) :
  fst (sector_series normal self sec dates s) !! i =
    sector_value self sec i <$> dates !! i.
Proof.
  rewrite (sector_series_same_value normal no_noise noise_off
             no_noise_disabled self sec dates s tt).
  destruct sec; apply for_enumerate_lookup.
Qed.

Lemma state_grants_lookup (dates : list Z) (s : RNG) (i : nat) :
  fst (_simulate_state_grants normal self dates s) !! i =
    (λ year : Z,
       budget_base (config self) * 0.25
       * (if (2010 <=? year)%Z then 1 + 0.01 * float (year - 2010) else 1)
       * 1) <$> dates !! i.
Proof.
  assert (same_value (_simulate_state_grants normal self dates)
                     (_simulate_state_grants no_noise self dates)) as Hsame.
  { unfold _simulate_state_grants. pose proof no_noise_disabled.
    same_value_loop. }
  rewrite (Hsame s tt). apply for_enumerate_lookup.
Qed.
End ClosedForms.

Section GeneratedColumns.
Context {RNG : Type}.
Variable normal : Q → Q → Gen RNG Q.
Variable self : Analyzer.

Local Abbreviation dates := (date_range (start_year self) (end_year self)).

Lemma generate_data_state_grants (s : RNG) :
  ∃ s', fst (generate_data normal self s) !! "Dotations_Etat"%string =
          Some (fst (_simulate_state_grants normal self dates s')).
Proof.
  set (P := λ data : gmap string (list Q),
    ∃ s', data !! "Dotations_Etat"%string =
            Some (fst (_simulate_state_grants normal self dates s'))).
  change (P (fst (generate_data normal self s))).
  revert s. unfold generate_data. cbv zeta.
  do 4 (eapply (gen_bind_post _ _ (λ _, True)); [done | intros ? _]).
  eapply (gen_bind_post _ _
            (λ v, ∃ s', v = fst (_simulate_state_grants normal self dates s')));
    [intros s0; by exists s0 | intros ? [s' ->]].
  do 18 (eapply (gen_bind_post _ _ (λ _, True)); [done | intros ? _]).
  intros s. unfold P, mret, gen_ret. cbn [fst]. exists s'.
  repeat (rewrite lookup_insert_ne by done). apply lookup_insert_eq.
Qed.

Lemma generate_data_mining (s : RNG) :
  ∃ s', fst (generate_data normal self s) !! "Investissement_Mine"%string =
          Some (fst (sector_series normal self Mine dates s')).
Proof.
  set (P := λ data : gmap string (list Q),
    ∃ s', data !! "Investissement_Mine"%string =
            Some (fst (sector_series normal self Mine dates s'))).
  change (P (fst (generate_data normal self s))).
  revert s. unfold generate_data. cbv zeta.
  do 22 (eapply (gen_bind_post _ _ (λ _, True)); [done | intros ? _]).
  eapply (gen_bind_post _ _
            (λ v, ∃ s', v = fst (sector_series normal self Mine dates s')));
    [intros s0; by exists s0 | intros ? [s' ->]].
  intros s. unfold P, mret, gen_ret. cbn [fst]. exists s'.
  apply lookup_insert_eq.
Qed.
End GeneratedColumns.

(** ** Products of factors *)

Lemma scale_mult (v : Q) (ks : list Q) : scale v ks == v * scale 1 ks.
Proof.
  revert v. induction ks as [|k ks IH]; intros v.
  - unfold scale. simpl. ring.
  - rewrite !scale_cons. rewrite (IH (v * k)), (IH (1 * k)). ring.
Qed.

Lemma factors_app (c : string) (l1 l2 : list (string * Q)) :
  factors c (l1 ++ l2) = factors c l1 ++ factors c l2.
Proof.
  induction l1 as [|[c' k] l1 IH]; [done|]. simpl.
  destruct (String.eqb c' c); simpl; by rewrite IH.
Qed.

Lemma Qle_bool_float (a b : Z) : Qle_bool (a # 1) (float b) = (a <=? b)%Z.
Proof. unfold Qle_bool, float. simpl. by rewrite !Z.mul_1_r. Qed.

Lemma float_sub (a b : Z) : float (a - b) == float a - float b.
Proof.
  unfold float. rewrite <-Z.add_opp_r, inject_Z_plus, inject_Z_opp. ring.
Qed.

Lemma float_of_nat_nonneg (i : nat) : 0 <= float_of_nat i.
Proof.
  unfold float_of_nat. change 0 with (inject_Z 0). rewrite <-Zle_Qle. lia.
Qed.

Lemma factors_state_grants (year : Z) :
  factors "Dotations_Etat" (row_adjustments (float year)) =
    if (2010 <=? year)%Z then [1 + 0.015 * (float year - 2010)] else [].
Proof.
  unfold row_adjustments. rewrite !factors_app.
  rewrite (Qle_bool_float 2010 year).
  destruct (between 2002 (float year) 2005), (between 2008 (float year) 2009),
    (between 2010 (float year) 2014), (2010 <=? year)%Z,
    (between 2020 (float year) 2021), (Qeq_bool (float year) 2020),
    (Qle_bool 2022 (float year)); reflexivity.
Qed.

(** * The claims *)

(** C4. For every locality name on file the resolver returns exactly the
    stored record; for every other name it returns the default record
    (population base 3000, budget base 30, rural); it fails on no string. *)
Theorem get_commune_config_stored_or_default (name : string) :
  _get_commune_config name =
    match configs !! name with
    | Some stored => Some stored
    | None =>
        Some {| population_base := 3000; budget_base := 30; type := "rurale";
                specialites :=
                  ["agriculture"; "petit_commerce"; "services_locaux"]%string |}
    end.
Proof. rewrite get_commune_config_eq. by destruct (configs !! name). Qed.

(** C5. For the configured range 2002-2025 the delivered table has exactly
    24 rows, every column has 24 entries, and the year column starts at 2002
    and increases by 1 from row to row. *)
Theorem generated_table_one_row_per_year {RNG} (normal : Q → Q → Gen RNG Q)
    (name : string) (s : RNG) :
  ∃ self final years,
    __init__ name = Some self ∧
    fst (generate_financial_data normal self s) = Some final ∧
    nrows final = Z.to_nat (end_year self - start_year self + 1) ∧
    nrows final = 24%nat ∧
    map_Forall (λ _ values, length values = 24%nat) (columns final) ∧
    columns final !! "Annee"%string = Some years ∧
    ∀ i : nat, (i < 24)%nat →
      years !! i = Some (float (start_year self + Z.of_nat i)).
Proof.
  set (self := analyzer_of name (default default_config (configs !! name))).
  destruct (generate_financial_data_Some normal self s)
    as (raw & final & Hraw & Hfinal & Hpass & Hn & Hcols).
  destruct (pass_shape _ _ Hpass) as [Hrows Hshape].
  assert (length (date_range (start_year self) (end_year self)) = 24%nat) as H24.
  { by rewrite date_range_length. }
  exists self, final, (float <$> date_range (start_year self) (end_year self)).
  split_and!.
  - apply init_eq.
  - exact Hfinal.
  - by rewrite Hrows, Hn, date_range_length.
  - by rewrite Hrows, Hn.
  - intros c values Hc.
    assert ((length <$> columns raw) !! c = Some (length values)) as Hl.
    { by rewrite <-Hshape, lookup_fmap, Hc. }
    rewrite lookup_fmap in Hl.
    destruct (columns raw !! c) as [v|] eqn:Hv; [|done].
    injection Hl as <-. rewrite <-H24.
    destruct (generate_data_columns normal self s) as [Hlen _].
    apply (Hlen c). by rewrite <-Hcols.
  - rewrite (pass_columns_ne _ _ _ Hpass), Hcols.
    + apply generate_data_annee.
    + by (apply (bool_decide_unpack _); vm_compute).
  - intros i Hi. rewrite list_lookup_fmap.
    assert (date_range (start_year self) (end_year self) !! i
            = Some (start_year self + Z.of_nat i)%Z) as ->; [|done].
    apply date_range_lookup. simpl. lia.
Qed.

(** C3. With noise disabled the whole generation (generators, then the
    pass) is a function of the configuration and the year range: two runs,
    from any two generator states, deliver the same table. *)
Theorem generation_deterministic_without_noise {R1 R2}
    (n1 : Q → Q → Gen R1 Q) (n2 : Q → Q → Gen R2 Q) (self : Analyzer)
    (s1 : R1) (s2 : R2) :
  noise_disabled n1 → noise_disabled n2 →
  ∃ final,
    fst (generate_financial_data n1 self s1) = Some final ∧
    fst (generate_financial_data n2 self s2) = Some final.
Proof.
  intros H1 H2.
  destruct (generate_financial_data_Some n1 self s1)
    as (raw & final & _ & Hfinal & _).
  exists final. split; [done|].
  by rewrite <-(generate_financial_data_same_value n1 n2 H1 H2 self s1 s2).
Qed.

Lemma generation_deterministic_without_noise_witness :
  noise_disabled no_noise ∧
  ∃ final,
    fst (generate_financial_data no_noise kone tt) = Some final ∧
    fst (generate_financial_data no_noise kone tt) = Some final.
Proof.
  split; [exact no_noise_disabled|].
  exact (generation_deterministic_without_noise no_noise no_noise kone tt tt
           no_noise_disabled no_noise_disabled).
Defined.

(** C8. The pass changes only the columns named in its rules: the number of
    rows and every other column (the fifteen remaining ones of the table
    among them) are left as they were; and it draws no random value: the
    generator state after the whole generation is the state after the
    columns were generated. *)
Theorem pass_frame {RNG} (normal : Q → Q → Gen RNG Q) (self : Analyzer)
    (s : RNG) (df df' : DataFrame) :
  _add_municipal_trends df = Some df' →
  nrows df' = nrows df ∧
  (∀ c, c ∉ adjusted_columns → columns df' !! c = columns df !! c) ∧
  Forall (λ c, columns df' !! c = columns df !! c) untouched_columns ∧
  snd (generate_financial_data normal self s) = snd (generate_frame normal self s).
Proof.
  intros Hpass. split_and!.
  - by apply pass_shape.
  - intros c Hc. by apply pass_columns_ne.
  - eapply Forall_impl; [apply untouched_not_adjusted|].
    intros c Hc. by apply pass_columns_ne.
  - reflexivity.
Qed.

Lemma pass_frame_witness :
  _add_municipal_trends kone_frame = Some kone_table ∧
  nrows kone_table = nrows kone_frame ∧
  (∀ c, c ∉ adjusted_columns →
     columns kone_table !! c = columns kone_frame !! c) ∧
  Forall (λ c, columns kone_table !! c = columns kone_frame !! c)
    untouched_columns ∧
  snd (generate_financial_data no_noise kone tt) =
    snd (generate_frame no_noise kone tt).
Proof.
  split; [vm_compute; reflexivity|].
  apply (pass_frame no_noise kone tt). vm_compute; reflexivity.
Defined.

(** C1, as the code has it. For a configuration with budget base 50 and the
    mining specialty (["mine"]), over 2002-2025 and with noise disabled, the
    mining investment of 2024 equals 50*0.04 * (1+0.038*22) * 2.1 * 1.8 in
    the table the generators build, and that value times 1.18 (the
    post-2022 stimulus of the pass) in the table handed to consumers. *)
Theorem mining_investment_2024 {RNG} (normal : Q → Q → Gen RNG Q)
    (self : Analyzer) (s : RNG) :
  noise_disabled normal →
  start_year self = 2002%Z → end_year self = 2025%Z →
  budget_base (config self) = 50 →
  "mine"%string ∈ specialites (config self) →
  ∃ raw final v0 v,
    fst (generate_frame normal self s) = Some raw ∧
    fst (generate_financial_data normal self s) = Some final ∧
    cell raw "Annee" 22 = Some 2024 ∧
    cell raw "Investissement_Mine" 22 = Some v0 ∧
    v0 == 50 * 0.04 * (1 + 0.038 * 22) * 2.1 * 1.8 ∧
    cell final "Investissement_Mine" 22 = Some v ∧
    v == 50 * 0.04 * (1 + 0.038 * 22) * 2.1 * 1.8 * 1.18.
Proof.
  intros Hoff Hstart Hend Hb Hmine.
  destruct (generate_financial_data_Some normal self s)
    as (raw & final & Hraw & Hfinal & Hpass & Hn & Hcols).
  destruct (generate_data_mining normal self s) as [s' Hm].
  assert (date_range (start_year self) (end_year self) !! 22%nat
          = Some 2024%Z) as Hd.
  { rewrite Hstart, Hend. reflexivity. }
  assert (cell raw "Annee" 22 = Some 2024) as Hyear.
  { unfold cell. rewrite Hcols, generate_data_annee. cbn [mbind option_bind].
    by rewrite list_lookup_fmap, Hd. }
  assert (cell raw "Investissement_Mine" 22
          = Some (sector_value self Mine 22 2024)) as Hv0.
  { unfold cell. rewrite Hcols, Hm. cbn [mbind option_bind].
    by rewrite sector_series_lookup, Hd. }
  assert (sector_value self Mine 22 2024
          == 50 * 0.04 * (1 + 0.038 * 22) * 2.1 * 1.8) as HX.
  { unfold sector_value, sector_unscaled, str_in. rewrite Hb.
    rewrite bool_decide_eq_true_2 by exact Hmine. by vm_compute. }
  exists raw, final, (sector_value self Mine 22 2024),
    (sector_value self Mine 22 2024 * 1.18).
  split_and!; [exact Hraw | exact Hfinal | exact Hyear | exact Hv0 | exact HX | |].
  - rewrite (pass_cell raw final "Investissement_Mine" 22 2024 Hpass);
      [| rewrite Hn, date_range_length, Hstart, Hend; simpl; lia | exact Hyear].
    rewrite Hv0.
    assert (factors "Investissement_Mine" (row_adjustments 2024) = [1.18]) as ->
      by (vm_compute; reflexivity).
    reflexivity.
  - rewrite HX. reflexivity.
Qed.

Lemma mining_investment_2024_witness :
  noise_disabled no_noise ∧ start_year kone = 2002%Z ∧ end_year kone = 2025%Z ∧
  budget_base (config kone) = 50 ∧ "mine"%string ∈ specialites (config kone) ∧
  ∃ raw final v0 v,
    fst (generate_frame no_noise kone tt) = Some raw ∧
    fst (generate_financial_data no_noise kone tt) = Some final ∧
    cell raw "Annee" 22 = Some 2024 ∧
    cell raw "Investissement_Mine" 22 = Some v0 ∧
    v0 == 50 * 0.04 * (1 + 0.038 * 22) * 2.1 * 1.8 ∧
    cell final "Investissement_Mine" 22 = Some v ∧
    v == 50 * 0.04 * (1 + 0.038 * 22) * 2.1 * 1.8 * 1.18.
Proof.
  assert ("mine"%string ∈ specialites (config kone)) as Hmine.
  { apply (bool_decide_unpack _). vm_compute. exact I. }
  split_and!; [exact no_noise_disabled | reflexivity | reflexivity
              | reflexivity | exact Hmine |].
  exact (mining_investment_2024 no_noise kone tt no_noise_disabled
           eq_refl eq_refl eq_refl Hmine).
Defined.

(** C1 as stated fails: for Koné (population base 8000, budget base 50,
    rural, specialties with mining and agriculture), without noise, the
    mining investment of 2024 in the delivered table is not
    50*0.04 * (1+0.038*22) * 2.1 * 1.8. *)
Lemma mining_investment_2024_delivered_differs :
  __init__ "Koné" = Some kone ∧
  fst (generate_financial_data no_noise kone tt) = Some kone_table ∧
  cell kone_table "Annee" 22 = Some 2024 ∧
  ∃ v, cell kone_table "Investissement_Mine" 22 = Some v ∧
       ¬ v == 50 * 0.04 * (1 + 0.038 * 22) * 2.1 * 1.8.
Proof.
  split_and!; [vm_compute; reflexivity | vm_compute; reflexivity
              | vm_compute; reflexivity |].
  eexists. split; [vm_compute; reflexivity|].
  intros H. vm_compute in H. discriminate H.
Qed.

(** C2 on the code. A row of year 2021 passes the range test 2020-2021 but
    meets no adjustment: its other-revenue and tourism-investment cells keep
    their values, while the row of year 2020 has them multiplied by 0.75 and
    0.88. *)
Theorem pandemic_dip_only_2020 (df df' : DataFrame) :
  _add_municipal_trends df = Some df' →
  (∀ i : nat, (i < nrows df)%nat → cell df "Annee" i = Some 2021 →
     cell df' "Autres_Recettes" i = cell df "Autres_Recettes" i ∧
     cell df' "Investissement_Tourisme" i = cell df "Investissement_Tourisme" i) ∧
  (∀ i : nat, (i < nrows df)%nat → cell df "Annee" i = Some 2020 →
     cell df' "Autres_Recettes" i = (λ v, v * 0.75) <$> cell df "Autres_Recettes" i ∧
     cell df' "Investissement_Tourisme" i
       = (λ v, v * 0.88) <$> cell df "Investissement_Tourisme" i).
Proof.
  intros Hpass. split; intros i Hi Hyear.
  - rewrite !(pass_cell df df' _ i _ Hpass Hi Hyear).
    assert (factors "Autres_Recettes" (row_adjustments 2021) = []) as ->
      by (vm_compute; reflexivity).
    assert (factors "Investissement_Tourisme" (row_adjustments 2021) = []) as ->
      by (vm_compute; reflexivity).
    split; [by destruct (cell df "Autres_Recettes" i)
           | by destruct (cell df "Investissement_Tourisme" i)].
  - rewrite !(pass_cell df df' _ i _ Hpass Hi Hyear).
    assert (factors "Autres_Recettes" (row_adjustments 2020) = [0.75]) as ->
      by (vm_compute; reflexivity).
    assert (factors "Investissement_Tourisme" (row_adjustments 2020) = [0.88]) as ->
      by (vm_compute; reflexivity).
    done.
Qed.

Lemma pandemic_dip_only_2020_witness :
  _add_municipal_trends kone_frame = Some kone_table ∧
  (19 < nrows kone_frame)%nat ∧ cell kone_frame "Annee" 19 = Some 2021 ∧
  cell kone_table "Autres_Recettes" 19 = cell kone_frame "Autres_Recettes" 19 ∧
  cell kone_table "Investissement_Tourisme" 19
    = cell kone_frame "Investissement_Tourisme" 19.
Proof.
  assert (_add_municipal_trends kone_frame = Some kone_table) as Hpass
    by (vm_compute; reflexivity).
  assert (19 < nrows kone_frame)%nat as Hi by (vm_compute; lia).
  assert (cell kone_frame "Annee" 19 = Some 2021) as Hyear
    by (vm_compute; reflexivity).
  split_and!; [exact Hpass | exact Hi | exact Hyear | |];
    apply (proj1 (pandemic_dip_only_2020 kone_frame kone_table Hpass) 19%nat Hi Hyear).
Defined.

(** C10. With noise disabled, the state grant delivered for a year
    [y >= 2010] is base * 0.25 * (1 + 0.01*(y-2010)) * (1 + 0.015*(y-2010)):
    the trend of the generator and the trend of the pass, both anchored at
    2010, are stacked; before 2010 neither applies and the value is
    base * 0.25. *)
Theorem state_grants_stacked_trends {RNG} (normal : Q → Q → Gen RNG Q)
    (self : Analyzer) (s : RNG) (i : nat) (y : Z) :
  noise_disabled normal →
  date_range (start_year self) (end_year self) !! i = Some y →
  ∃ final v,
    fst (generate_financial_data normal self s) = Some final ∧
    cell final "Annee" i = Some (float y) ∧
    cell final "Dotations_Etat" i = Some v ∧
    v == if (2010 <=? y)%Z
         then budget_base (config self) * 0.25
              * (1 + 0.01 * (float y - 2010)) * (1 + 0.015 * (float y - 2010))
         else budget_base (config self) * 0.25.
Proof.
  intros Hoff Hd.
  destruct (generate_financial_data_Some normal self s)
    as (raw & final & Hraw & Hfinal & Hpass & Hn & Hcols).
  destruct (generate_data_state_grants normal self s) as [s' Hg].
  assert (i < nrows raw)%nat as Hi.
  { rewrite Hn. by eapply lookup_lt_Some. }
  assert (cell raw "Annee" i = Some (float y)) as Hyear.
  { unfold cell. rewrite Hcols, generate_data_annee. cbn [mbind option_bind].
    by rewrite list_lookup_fmap, Hd. }
  eexists final, _. split_and!.
  - exact Hfinal.
  - unfold cell. rewrite (pass_columns_ne _ _ _ Hpass).
    + exact Hyear.
    + by (apply (bool_decide_unpack _); vm_compute).
  - rewrite (pass_cell raw final _ i _ Hpass Hi Hyear).
    unfold cell at 1. rewrite Hcols, Hg. cbn [mbind option_bind].
    rewrite state_grants_lookup, Hd by done. reflexivity.
  - rewrite factors_state_grants. destruct (2010 <=? y)%Z.
    + unfold scale. cbn [foldl]. rewrite float_sub.
      change (float 2010) with 2010. ring.
    + unfold scale. cbn [foldl]. ring.
Qed.

Lemma state_grants_stacked_trends_witness :
  noise_disabled no_noise ∧
  date_range (start_year kone) (end_year kone) !! 20%nat = Some 2022%Z ∧
  ∃ final v,
    fst (generate_financial_data no_noise kone tt) = Some final ∧
    cell final "Annee" 20 = Some (float 2022) ∧
    cell final "Dotations_Etat" 20 = Some v ∧
    v == if (2010 <=? 2022)%Z
         then budget_base (config kone) * 0.25
              * (1 + 0.01 * (float 2022 - 2010)) * (1 + 0.015 * (float 2022 - 2010))
         else budget_base (config kone) * 0.25.
Proof.
  split_and!; [exact no_noise_disabled | reflexivity |].
  exact (state_grants_stacked_trends no_noise kone tt 20 2022
           no_noise_disabled eq_refl).
Defined.

(** ** The sectoral series and the specialties *)

Lemma sector_series_length {RNG} (normal : Q → Q → Gen RNG Q) (self : Analyzer)
    (sec : sector) (dates : list Z) (s : RNG) :
  length (fst (sector_series normal self sec dates s)) = length dates.
Proof. destruct sec; apply for_enumerate_from_length. Qed.

Lemma sector_unscaled_pos (self : Analyzer) (sec : sector) (i : nat) (year : Z) :
  0 < budget_base (config self) → 0 < sector_unscaled self sec i year.
Proof.
  intros Hb. unfold sector_unscaled.
  pose proof (float_of_nat_nonneg i) as Hi.
  repeat apply Qmult_lt_0_compat.
  - exact Hb.
  - by destruct sec.
  - destruct sec; simpl; lra.
  - destruct (year_in year (sector_years sec)); by destruct sec.
Qed.

Lemma sector_multiplier_bounds (sec : sector) :
  1.4 <= sector_present sec ∧ sector_present sec <= 1.8 ∧
  0.6 <= sector_absent sec ∧ sector_absent sec <= 0.9.
Proof. destruct sec; simpl; lra. Qed.

(** C6. For each of the seven sectoral series, with noise disabled and the
    same (positive) budget base, every value generated for a locality whose
    specialties contain the matching string is strictly larger than the
    corresponding value for a locality whose specialties do not. Both series
    have one value per year; the value of row [i] is the part common to both
    localities, budget base x share x (1 + rate x i) x peak-year multiplier,
    which is positive, times the specialty multiplier (and the noise factor
    1): a fixed value in [1.4, 1.8] when the specialty is present and in
    [0.6, 0.9] when it is absent. *)
Theorem specialty_raises_sector_series {R1 R2}
    (n1 : Q → Q → Gen R1 Q) (n2 : Q → Q → Gen R2 Q)
    (self1 self2 : Analyzer) (sec : sector) (dates : list Z)
    (s1 : R1) (s2 : R2) :
  noise_disabled n1 → noise_disabled n2 →
  budget_base (config self1) = budget_base (config self2) →
  0 < budget_base (config self1) →
  sector_specialty sec ∈ specialites (config self1) →
  sector_specialty sec ∉ specialites (config self2) →
  (1.4 <= sector_present sec ∧ sector_present sec <= 1.8) ∧
  (0.6 <= sector_absent sec ∧ sector_absent sec <= 0.9) ∧
  length (fst (sector_series n1 self1 sec dates s1)) = length dates ∧
  length (fst (sector_series n2 self2 sec dates s2)) = length dates ∧
  (∀ (i : nat) (year : Z), dates !! i = Some year →
     fst (sector_series n1 self1 sec dates s1) !! i =
       Some (budget_base (config self1) * sector_share sec
             * (1 + sector_rate sec * float_of_nat i)
             * (if year_in year (sector_years sec) then sector_peak sec else 1.0)
             * sector_present sec * 1) ∧
     fst (sector_series n2 self2 sec dates s2) !! i =
       Some (budget_base (config self1) * sector_share sec
             * (1 + sector_rate sec * float_of_nat i)
             * (if year_in year (sector_years sec) then sector_peak sec else 1.0)
             * sector_absent sec * 1) ∧
     0 < budget_base (config self1) * sector_share sec
         * (1 + sector_rate sec * float_of_nat i)
         * (if year_in year (sector_years sec) then sector_peak sec else 1.0)) ∧
  Forall2
    (λ v1 v2, v2 < v1 ∧
       ∃ u, 0 < u ∧ v1 == u * sector_present sec ∧ v2 == u * sector_absent sec)
    (fst (sector_series n1 self1 sec dates s1))
    (fst (sector_series n2 self2 sec dates s2)).
Proof.
  intros Hoff1 Hoff2 Hb Hpos Hin Hout.
  destruct (sector_multiplier_bounds sec) as (Hp1 & Hp2 & Ha1 & Ha2).
  assert (∀ (i : nat) (year : Z), dates !! i = Some year →
     fst (sector_series n1 self1 sec dates s1) !! i =
       Some (sector_unscaled self1 sec i year * sector_present sec * 1) ∧
     fst (sector_series n2 self2 sec dates s2) !! i =
       Some (sector_unscaled self1 sec i year * sector_absent sec * 1))
    as Hrows.
  { intros i year Hyear.
    rewrite !sector_series_lookup by assumption. rewrite Hyear.
    cbn [fmap option_fmap option_map]. unfold sector_value, str_in.
    rewrite (bool_decide_eq_true_2 _ Hin), (bool_decide_eq_false_2 _ Hout).
    assert (sector_unscaled self2 sec i year = sector_unscaled self1 sec i year)
      as -> by (unfold sector_unscaled; by rewrite Hb).
    split; reflexivity. }
  split_and!; try assumption.
  - apply sector_series_length.
  - apply sector_series_length.
  - intros i year Hyear. destruct (Hrows i year Hyear) as [Hv1 Hv2].
    split_and!; [exact Hv1 | exact Hv2 |].
    exact (sector_unscaled_pos self1 sec i year Hpos).
  - apply Forall2_same_length_lookup_2.
    { by rewrite !sector_series_length. }
    intros i v1 v2 Hv1 Hv2.
    destruct (dates !! i) as [year|] eqn:Hyear.
    + destruct (Hrows i year Hyear) as [Hr1 Hr2].
      rewrite Hr1 in Hv1. rewrite Hr2 in Hv2.
      injection Hv1 as <-. injection Hv2 as <-.
      pose proof (sector_unscaled_pos self1 sec i year Hpos) as Hu.
      set (u := sector_unscaled self1 sec i year) in *. clearbody u.
      split.
      * destruct sec; simpl; lra.
      * exists u. split; [exact Hu|]. split; ring.
    + apply lookup_lt_Some in Hv1. rewrite sector_series_length in Hv1.
      apply lookup_ge_None_1 in Hyear. lia.
Qed.

Lemma specialty_raises_sector_series_witness :
  noise_disabled no_noise ∧
  budget_base (config kone) = budget_base (config kone_plain) ∧
  0 < budget_base (config kone) ∧
  sector_specialty Mine ∈ specialites (config kone) ∧
  (sector_specialty Mine ∉ specialites (config kone_plain)) ∧
  (1.4 <= sector_present Mine ∧ sector_present Mine <= 1.8) ∧
  (0.6 <= sector_absent Mine ∧ sector_absent Mine <= 0.9) ∧
  length (fst (sector_series no_noise kone Mine (date_range 2002 2025) tt))
    = length (date_range 2002 2025) ∧
  length (fst (sector_series no_noise kone_plain Mine (date_range 2002 2025) tt))
    = length (date_range 2002 2025) ∧
  (∀ (i : nat) (year : Z), date_range 2002 2025 !! i = Some year →
     fst (sector_series no_noise kone Mine (date_range 2002 2025) tt) !! i =
       Some (budget_base (config kone) * sector_share Mine
             * (1 + sector_rate Mine * float_of_nat i)
             * (if year_in year (sector_years Mine) then sector_peak Mine else 1.0)
             * sector_present Mine * 1) ∧
     fst (sector_series no_noise kone_plain Mine (date_range 2002 2025) tt) !! i =
       Some (budget_base (config kone) * sector_share Mine
             * (1 + sector_rate Mine * float_of_nat i)
             * (if year_in year (sector_years Mine) then sector_peak Mine else 1.0)
             * sector_absent Mine * 1) ∧
     0 < budget_base (config kone) * sector_share Mine
         * (1 + sector_rate Mine * float_of_nat i)
         * (if year_in year (sector_years Mine) then sector_peak Mine else 1.0)) ∧
  Forall2
    (λ v1 v2, v2 < v1 ∧
       ∃ u, 0 < u ∧ v1 == u * sector_present Mine ∧ v2 == u * sector_absent Mine)
    (fst (sector_series no_noise kone Mine (date_range 2002 2025) tt))
    (fst (sector_series no_noise kone_plain Mine (date_range 2002 2025) tt)).
Proof.
  assert (sector_specialty Mine ∈ specialites (config kone)) as Hin.
  { apply (bool_decide_unpack _). vm_compute. exact I. }
  assert (sector_specialty Mine ∉ specialites (config kone_plain)) as Hout.
  { apply (bool_decide_unpack _). vm_compute. exact I. }
  assert (0 < budget_base (config kone)) as Hpos by reflexivity.
  split_and!; [exact no_noise_disabled | reflexivity | exact Hpos
              | exact Hin | exact Hout | ..];
    apply (specialty_raises_sector_series no_noise no_noise kone kone_plain
             Mine (date_range 2002 2025) tt tt no_noise_disabled
             no_noise_disabled eq_refl Hpos Hin Hout).
Defined.

(** ** Checks run on every configuration on file *)

Lemma nonneg_frame_cell (df : DataFrame) (c : string) (i : nat) (v : Q) :
  nonneg_frame df = true → cell df c i = Some v → 0 <= v.
Proof.
  unfold nonneg_frame, cell. intros Hall%bool_decide_eq_true_1 Hcell.
  destruct (columns df !! c) as [values|] eqn:Hc; [|done]. simpl in Hcell.
  pose proof (Hall c values Hc) as Hvalues. simpl in Hvalues.
  apply Qle_bool_iff.
  apply (proj1 (forallb_forall _ _) Hvalues).
  apply (proj1 (list_elem_of_In values v)).
  exact (list_elem_of_lookup_2 values i v Hcell).
Qed.

Lemma known_config_check (check : commune_config → bool) (name : string) :
  forallb check known_configs = true →
  check (default default_config (configs !! name)) = true.
Proof.
  intros Hall. apply (proj1 (forallb_forall _ _) Hall).
  apply (proj1 (list_elem_of_In known_configs _)).
  apply (get_commune_config_known name), get_commune_config_eq.
Qed.

Lemma nonneg_run_known (name : string) :
  forallb (nonneg_run name) known_configs = true.
Proof. vm_compute. reflexivity. Qed.

Lemma second_pass_differs_known (name : string) :
  forallb (second_pass_differs name) known_configs = true.
Proof. vm_compute. reflexivity. Qed.

Lemma frame_without_noise_eq {RNG} (normal : Q → Q → Gen RNG Q)
    (self : Analyzer) (s : RNG) :
  noise_disabled normal →
  fst (generate_frame normal self s) = frame_without_noise self.
Proof.
  intros Hoff.
  exact (generate_frame_same_value normal no_noise Hoff no_noise_disabled
           self s tt).
Qed.

Lemma table_without_noise_eq {RNG} (normal : Q → Q → Gen RNG Q)
    (self : Analyzer) (s : RNG) :
  noise_disabled normal →
  fst (generate_financial_data normal self s) = table_without_noise self.
Proof.
  intros Hoff.
  exact (generate_financial_data_same_value normal no_noise Hoff
           no_noise_disabled self s tt).
Qed.

(** C9. For every locality and with noise disabled, every value of the
    table over 2002-2025 is non-negative, before the pass and after it; in
    particular the debt-ratio factor 1 - 0.012*(year-2010) stays non-negative
    up to 2025. *)
Theorem generated_values_nonnegative {RNG} (normal : Q → Q → Gen RNG Q)
    (name : string) (s : RNG) :
  noise_disabled normal →
  (∃ self raw final,
     __init__ name = Some self ∧
     fst (generate_frame normal self s) = Some raw ∧
     fst (generate_financial_data normal self s) = Some final ∧
     (∀ c i v, cell raw c i = Some v → 0 <= v) ∧
     (∀ c i v, cell final c i = Some v → 0 <= v)) ∧
  (∀ year : Z, (2010 ≤ year ≤ 2025)%Z → 0 <= 1 - 0.012 * float (year - 2010)).
Proof.
  intros Hoff. split.
  - pose proof (init_eq name) as Hinit.
    pose proof (known_config_check (nonneg_run name) name
                  (nonneg_run_known name)) as Hrun.
    revert Hinit Hrun.
    generalize (default default_config (configs !! name)).
    intros cfg Hinit Hrun. unfold nonneg_run in Hrun.
    destruct (frame_without_noise (analyzer_of name cfg)) as [raw|] eqn:Hraw;
      [|done].
    destruct (table_without_noise (analyzer_of name cfg)) as [final|] eqn:Hfinal;
      [|done].
    apply andb_prop in Hrun as [Hr Hf].
    exists (analyzer_of name cfg), raw, final. split_and!.
    + exact Hinit.
    + rewrite <-Hraw. by apply frame_without_noise_eq.
    + rewrite <-Hfinal. by apply table_without_noise_eq.
    + intros c i v. exact (nonneg_frame_cell raw c i v Hr).
    + intros c i v. exact (nonneg_frame_cell final c i v Hf).
  - intros year [Hlo Hhi].
    assert (float (year - 2010) <= 15) as Hle.
    { unfold float. change 15 with (inject_Z 15). rewrite <-Zle_Qle. lia. }
    lra.
Qed.

Lemma generated_values_nonnegative_witness :
  noise_disabled no_noise ∧
  (∃ self raw final,
     __init__ "Koné" = Some self ∧
     fst (generate_frame no_noise self tt) = Some raw ∧
     fst (generate_financial_data no_noise self tt) = Some final ∧
     (∀ c i v, cell raw c i = Some v → 0 <= v) ∧
     (∀ c i v, cell final c i = Some v → 0 <= v)) ∧
  (∀ year : Z, (2010 ≤ year ≤ 2025)%Z → 0 <= 1 - 0.012 * float (year - 2010)).
Proof.
  split; [exact no_noise_disabled|].
  exact (generated_values_nonnegative no_noise "Koné" tt no_noise_disabled).
Defined.

(** C7. The pass is not idempotent. Applied twice to a table, it leaves in
    every cell the value before the pass times the square of the combined
    multiplier one application applies to that cell; and on the freshly
    generated table of every locality (noise disabled) the second
    application changes a value. *)
Theorem pass_twice_squares_multiplier {RNG} (normal : Q → Q → Gen RNG Q)
    (name : string) (s : RNG) (df df1 df2 : DataFrame) (c : string) (i : nat)
    (year v : Q) :
  noise_disabled normal →
  _add_municipal_trends df = Some df1 →
  _add_municipal_trends df1 = Some df2 →
  (i < nrows df)%nat →
  cell df "Annee" i = Some year →
  cell df c i = Some v →
  (∃ v1 v2,
     cell df1 c i = Some v1 ∧ cell df2 c i = Some v2 ∧
     v1 == v * combined_multiplier c year ∧
     v2 == v * (combined_multiplier c year) ^ 2) ∧
  (∃ self once twice col j a b,
     __init__ name = Some self ∧
     fst (generate_financial_data normal self s) = Some once ∧
     _add_municipal_trends once = Some twice ∧
     cell once col j = Some a ∧ cell twice col j = Some b ∧ ¬ a == b).
Proof.
  intros Hoff H1 H2 Hi Hyear Hv. split.
  - destruct (pass_shape _ _ H1) as [Hrows _].
    assert (cell df1 "Annee" i = Some year) as Hyear1.
    { unfold cell. rewrite (pass_columns_ne _ _ _ H1); [exact Hyear|].
      by (apply (bool_decide_unpack _); vm_compute). }
    exists (scale v (factors c (row_adjustments year))),
      (scale (scale v (factors c (row_adjustments year)))
         (factors c (row_adjustments year))).
    split_and!.
    + by rewrite (pass_cell df df1 c i year H1 Hi Hyear), Hv.
    + rewrite (pass_cell df1 df2 c i year H2); [| by rewrite Hrows | exact Hyear1].
      by rewrite (pass_cell df df1 c i year H1 Hi Hyear), Hv.
    + apply scale_mult.
    + unfold combined_multiplier.
      rewrite (scale_mult (scale v _)), (scale_mult v). ring.
  - pose proof (init_eq name) as Hinit.
    pose proof (known_config_check (second_pass_differs name) name
                  (second_pass_differs_known name)) as Hrun.
    revert Hinit Hrun.
    generalize (default default_config (configs !! name)).
    intros cfg Hinit Hrun. unfold second_pass_differs in Hrun.
    destruct (table_without_noise (analyzer_of name cfg)) as [once|] eqn:Honce;
      [|done].
    destruct (_add_municipal_trends once) as [twice|] eqn:Htwice; [|done].
    destruct (cell once "Investissement_Agriculture" 0) as [a|] eqn:Ha; [|done].
    destruct (cell twice "Investissement_Agriculture" 0) as [b|] eqn:Hb; [|done].
    exists (analyzer_of name cfg), once, twice,
      "Investissement_Agriculture"%string, 0%nat, a, b.
    split_and!.
    + exact Hinit.
    + rewrite <-Honce. by apply table_without_noise_eq.
    + exact Htwice.
    + exact Ha.
    + exact Hb.
    + intros Hab. apply Qeq_bool_iff in Hab. by rewrite Hab in Hrun.
Qed.

Lemma pass_twice_squares_multiplier_witness :
  noise_disabled no_noise ∧
  _add_municipal_trends kone_frame = Some kone_table ∧
  _add_municipal_trends kone_table = Some kone_table_twice ∧
  (0 < nrows kone_frame)%nat ∧
  cell kone_frame "Annee" 0 = Some 2002 ∧
  cell kone_frame "Investissement_Agriculture" 0 = Some (50 * 0.05 * (1 + 0.03 * 0) * 1.0 * 1.4 * 1) ∧
  (∃ v1 v2,
     cell kone_table "Investissement_Agriculture" 0 = Some v1 ∧
     cell kone_table_twice "Investissement_Agriculture" 0 = Some v2 ∧
     v1 == 50 * 0.05 * (1 + 0.03 * 0) * 1.0 * 1.4 * 1
           * combined_multiplier "Investissement_Agriculture" 2002 ∧
     v2 == 50 * 0.05 * (1 + 0.03 * 0) * 1.0 * 1.4 * 1
           * (combined_multiplier "Investissement_Agriculture" 2002) ^ 2) ∧
  (∃ self once twice col j a b,
     __init__ "Koné" = Some self ∧
     fst (generate_financial_data no_noise self tt) = Some once ∧
     _add_municipal_trends once = Some twice ∧
     cell once col j = Some a ∧ cell twice col j = Some b ∧ ¬ a == b).
Proof.
  assert (_add_municipal_trends kone_frame = Some kone_table) as H1
    by (vm_compute; reflexivity).
  assert (_add_municipal_trends kone_table = Some kone_table_twice) as H2
    by (vm_compute; reflexivity).
  assert (0 < nrows kone_frame)%nat as Hi by (vm_compute; lia).
  assert (cell kone_frame "Annee" 0 = Some 2002) as Hyear
    by (vm_compute; reflexivity).
  assert (cell kone_frame "Investissement_Agriculture" 0
          = Some (50 * 0.05 * (1 + 0.03 * 0) * 1.0 * 1.4 * 1)) as Hv
    by (vm_compute; reflexivity).
  split_and!; [exact no_noise_disabled | exact H1 | exact H2 | exact Hi
              | exact Hyear | exact Hv | ..];
    apply (pass_twice_squares_multiplier no_noise "Koné" tt kone_frame
             kone_table kone_table_twice "Investissement_Agriculture" 0 2002 _
             no_noise_disabled H1 H2 Hi Hyear Hv).
Defined.


(** * Further properties of the code *)

(** ** Generation over any range of years *)

Tactic Notation "skip_columns" integer(n) :=
  do n (eapply (gen_bind_post _ _ (λ _, True)); [done | intros ? _]).

Section MoreColumns.
Context {RNG : Type}.
Variable normal : Q → Q → Gen RNG Q.
Variable self : Analyzer.

Local Abbreviation dates := (date_range (start_year self) (end_year self)).

Lemma generate_data_population (s : RNG) :
  ∃ s', fst (generate_data normal self s) !! "Population"%string =
          Some (fst (_simulate_population (RNG:=RNG) self dates s')).
Proof.
  set (P := λ data : gmap string (list Q),
    ∃ s', data !! "Population"%string =
            Some (fst (_simulate_population (RNG:=RNG) self dates s'))).
  change (P (fst (generate_data normal self s))).
  revert s. unfold generate_data. cbv zeta.
  eapply (gen_bind_post _ _
            (λ v, ∃ s', v = fst (_simulate_population (RNG:=RNG) self dates s')));
    [intros s0; by exists s0 | intros ? [s' ->]].
  skip_columns 22.
  intros s. unfold P, mret, gen_ret. cbn [fst]. exists s'.
  repeat (rewrite lookup_insert_ne by done). apply lookup_insert_eq.
Qed.

Lemma generate_data_households (s : RNG) :
  ∃ s', fst (generate_data normal self s) !! "Menages"%string =
          Some (fst (_simulate_households (RNG:=RNG) self dates s')).
Proof.
  set (P := λ data : gmap string (list Q),
    ∃ s', data !! "Menages"%string =
            Some (fst (_simulate_households (RNG:=RNG) self dates s'))).
  change (P (fst (generate_data normal self s))).
  revert s. unfold generate_data. cbv zeta.
  skip_columns 1.
  eapply (gen_bind_post _ _
            (λ v, ∃ s', v = fst (_simulate_households (RNG:=RNG) self dates s')));
    [intros s0; by exists s0 | intros ? [s' ->]].
  skip_columns 21.
  intros s. unfold P, mret, gen_ret. cbn [fst]. exists s'.
  repeat (rewrite lookup_insert_ne by done). apply lookup_insert_eq.
Qed.

Lemma population_lookup (years : list Z) (s : RNG) (i : nat) :
  fst (_simulate_population self years s) !! i =
    (λ _ : Z, population_base (config self)
              * (1 + population_rate (type (config self)) * float_of_nat i))
    <$> years !! i.
Proof.
  assert (same_value (_simulate_population (RNG:=RNG) self years)
                     (_simulate_population (RNG:=unit) self years)) as Hsame.
  { unfold _simulate_population. same_value_loop. }
  rewrite (Hsame s tt). apply for_enumerate_lookup.
Qed.

Lemma households_lookup (years : list Z) (s : RNG) (i : nat) :
  fst (_simulate_households self years s) !! i =
    (λ _ : Z, population_base (config self) / 2.7
              * (1 + 0.015 * float_of_nat i))
    <$> years !! i.
Proof.
  assert (same_value (_simulate_households (RNG:=RNG) self years)
                     (_simulate_households (RNG:=unit) self years)) as Hsame.
  { unfold _simulate_households. same_value_loop. }
  rewrite (Hsame s tt). apply for_enumerate_lookup.
Qed.

(** A column of the generated data is a column of the delivered table,
    with one value per year. *)
Lemma final_column_present (s : RNG) (raw final : DataFrame) (c : string) :
  fst (generate_frame normal self s) = Some raw →
  _add_municipal_trends raw = Some final →
  is_Some (fst (generate_data normal self s) !! c) →
  ∃ values, columns final !! c = Some values ∧ length values = length dates.
Proof.
  intros Hraw Hpass [w Hw]. rewrite generate_frame_eq in Hraw.
  assert (columns raw = fst (generate_data normal self s)) as Hcols.
  { apply (f_equal (λ o, match o with Some d => columns d | None => ∅ end))
      in Hraw. symmetry. exact Hraw. }
  destruct (pass_shape _ _ Hpass) as [_ Hshape].
  destruct (generate_data_columns normal self s) as [Hlen _].
  pose proof (f_equal (λ m : gmap string nat, m !! c) Hshape) as Hc.
  cbv beta in Hc. rewrite !lookup_fmap, Hcols, Hw in Hc.
  destruct (columns final !! c) as [v|] eqn:Hv; [|done].
  exists v. split; [done|]. injection Hc as ->. by apply (Hlen c).
Qed.
End MoreColumns.

(** X1. For every range of supported years (four-digit years inside the
    bounds of pandas, see [supported_years]) and whatever the sampler draws,
    generation completes; the table has one row per year of the range (none
    when the range is empty), all twenty-four columns with one value per
    row, and the years in ascending order from [start_year]. *)
Theorem generation_over_any_range {RNG} (normal : Q → Q → Gen RNG Q)
    (self : Analyzer) (s : RNG) :
  supported_years self →
  ∃ final,
    fst (generate_financial_data normal self s) = Some final ∧
    nrows final = Z.to_nat (end_year self - start_year self + 1) ∧
    Forall (λ c, ∃ values,
              columns final !! c = Some values ∧ length values = nrows final)
      ("Annee"%string :: adjusted_columns ++ untouched_columns) ∧
    ∀ i : nat,
      cell final "Annee" i =
        if bool_decide (start_year self + Z.of_nat i ≤ end_year self)%Z
        then Some (float (start_year self + Z.of_nat i)) else None.
Proof.
  intros _.
  destruct (generate_financial_data_Some normal self s)
    as (raw & final & Hraw & Hfinal & Hpass & Hn & Hcols).
  destruct (pass_shape _ _ Hpass) as [Hrows _].
  exists final. split_and!.
  - exact Hfinal.
  - by rewrite Hrows, Hn, date_range_length.
  - destruct (generate_data_columns normal self s) as [_ Hpres].
    eapply Forall_impl; [exact Hpres|]. intros c Hc. cbv beta in Hc.
    destruct (final_column_present normal self s raw final c Hraw Hpass Hc)
      as (values & Hv & Hlen).
    exists values. split; [done|]. by rewrite Hrows, Hn.
  - intros i. unfold cell. rewrite (pass_columns_ne _ _ _ Hpass), Hcols.
    + rewrite generate_data_annee. cbn [mbind option_bind].
      rewrite list_lookup_fmap. case_bool_decide as Hi.
      * assert (date_range (start_year self) (end_year self) !! i
                = Some (start_year self + Z.of_nat i)%Z) as ->;
          [|reflexivity].
        apply date_range_lookup. split; [reflexivity | exact Hi].
      * destruct (date_range (start_year self) (end_year self) !! i)
          as [y|] eqn:Hy; [|reflexivity].
        apply date_range_lookup in Hy as [_ Hy]. lia.
    + by (apply (bool_decide_unpack _); vm_compute).
Qed.

Lemma generation_over_any_range_witness :
  supported_years kone_empty_range ∧
  ∃ final,
    fst (generate_financial_data no_noise kone_empty_range tt) = Some final ∧
    nrows final
      = Z.to_nat (end_year kone_empty_range - start_year kone_empty_range + 1) ∧
    Forall (λ c, ∃ values,
              columns final !! c = Some values ∧ length values = nrows final)
      ("Annee"%string :: adjusted_columns ++ untouched_columns) ∧
    ∀ i : nat,
      cell final "Annee" i =
        if bool_decide (start_year kone_empty_range + Z.of_nat i
                        ≤ end_year kone_empty_range)%Z
        then Some (float (start_year kone_empty_range + Z.of_nat i)) else None.
Proof.
  assert (supported_years kone_empty_range) as Hyears.
  { unfold supported_years, kone_empty_range. cbn [start_year end_year]. lia. }
  split; [exact Hyears|].
  exact (generation_over_any_range no_noise kone_empty_range tt Hyears).
Defined.

(** X2. The demographic columns carry no noise: whatever the sampler
    draws, row [i] of the population is
    [population_base * (1 + rate * i)], with the rate of the type of the
    locality, and row [i] of the households is
    [population_base / 2.7 * (1 + 0.015 * i)]. *)
Theorem demographic_columns_ignore_noise {RNG} (normal : Q → Q → Gen RNG Q)
    (self : Analyzer) (s : RNG) :
  ∃ final,
    fst (generate_financial_data normal self s) = Some final ∧
    ∀ i : nat,
      cell final "Population" i =
        (λ _ : Z, population_base (config self)
                  * (1 + population_rate (type (config self)) * float_of_nat i))
        <$> date_range (start_year self) (end_year self) !! i ∧
      cell final "Menages" i =
        (λ _ : Z, population_base (config self) / 2.7
                  * (1 + 0.015 * float_of_nat i))
        <$> date_range (start_year self) (end_year self) !! i.
Proof.
  destruct (generate_financial_data_Some normal self s)
    as (raw & final & Hraw & Hfinal & Hpass & Hn & Hcols).
  destruct (generate_data_population normal self s) as [sp Hp].
  destruct (generate_data_households normal self s) as [sh Hh].
  exists final. split; [exact Hfinal|]. intros i. unfold cell.
  rewrite !(pass_columns_ne _ _ _ Hpass), Hcols, Hp, Hh
    by (by (apply (bool_decide_unpack _); vm_compute)).
  cbn [mbind option_bind]. split.
  - exact (population_lookup self _ sp i).
  - exact (households_lookup self _ sh i).
Qed.

(** X3. A type that is neither urban, peri-urban nor insular (coastal, for
    one) is generated exactly as rural: same sampler and same state give the
    same table and the same final state. *)
Theorem other_types_generate_as_rural {RNG} (normal : Q → Q → Gen RNG Q)
    (self : Analyzer) (s : RNG) :
  type (config self) ≠ "urbaine"%string →
  type (config self) ≠ "periurbaine"%string →
  type (config self) ≠ "insulaire"%string →
  generate_financial_data normal self s =
    generate_financial_data normal (as_rural self) s.
Proof.
  intros Hu Hp Hi.
  apply String.eqb_neq in Hu, Hp, Hi.
  assert (_simulate_population (RNG:=RNG) self
          = _simulate_population (as_rural self)) as Hpop.
  { unfold _simulate_population, as_rural.
    cbn [config type population_base]. by rewrite Hu, Hp, Hi. }
  assert (_simulate_total_revenue normal self
          = _simulate_total_revenue normal (as_rural self)) as Hrev.
  { unfold _simulate_total_revenue, as_rural.
    cbn [config type budget_base]. by rewrite Hu, Hp, Hi. }
  unfold generate_financial_data, generate_frame, generate_data.
  rewrite Hpop, Hrev. reflexivity.
Qed.

Lemma other_types_generate_as_rural_witness :
  type (config poindimie) ≠ "urbaine"%string ∧
  type (config poindimie) ≠ "periurbaine"%string ∧
  type (config poindimie) ≠ "insulaire"%string ∧
  generate_financial_data no_noise poindimie tt =
    generate_financial_data no_noise (as_rural poindimie) tt.
Proof.
  assert (type (config poindimie) ≠ "urbaine"%string) as Hu by discriminate.
  assert (type (config poindimie) ≠ "periurbaine"%string) as Hp by discriminate.
  assert (type (config poindimie) ≠ "insulaire"%string) as Hi by discriminate.
  split_and!; [exact Hu | exact Hp | exact Hi |].
  exact (other_types_generate_as_rural no_noise poindimie tt Hu Hp Hi).
Defined.

(** X4. Every configuration the resolver can return has a positive
    population base, a positive budget base and one of the five types. *)
Theorem resolved_config_well_formed (name : string) :
  ∃ cfg,
    _get_commune_config name = Some cfg ∧
    0 < population_base cfg ∧ 0 < budget_base cfg ∧
    type cfg ∈ ["urbaine"; "periurbaine"; "rurale"; "cotiere"; "insulaire"]%string.
Proof.
  assert (forallb well_formed_config known_configs = true) as Hall
    by (vm_compute; reflexivity).
  pose proof (known_config_check well_formed_config name Hall) as Hwf.
  exists (default default_config (configs !! name)).
  split; [apply get_commune_config_eq|].
  revert Hwf. generalize (default default_config (configs !! name)).
  intros cfg Hwf. unfold well_formed_config in Hwf.
  apply andb_prop in Hwf as [Hwf Hty]. apply andb_prop in Hwf as [Hpb Hbb].
  apply negb_true_iff in Hpb, Hbb.
  split_and!.
  - apply Qnot_le_lt. intros H%Qle_bool_iff. by rewrite H in Hpb.
  - apply Qnot_le_lt. intros H%Qle_bool_iff. by rewrite H in Hbb.
  - by apply bool_decide_eq_true_1 in Hty.
Qed.

(** ** The pass: completion, errors and invariants *)

Lemma run_block_Some_inv (i : nat) (block : list (string * Q))
    (df df' : DataFrame) (c : string) :
  run_block i block df = Some df' → c ∈ block.*1 → is_Some (cell df c i).
Proof.
  revert df. induction block as [|[col k] rest IH]; intros df H Hc; simpl in H.
  - by apply elem_of_nil in Hc.
  - destruct (loc_mul i col k df) as [df1|] eqn:H1; [|done]. simpl in H.
    rewrite fmap_cons in Hc. cbn [fst] in Hc.
    apply elem_of_cons in Hc as [->|Hc].
    + apply loc_mul_inv in H1 as (values & v & Hcol & Hv & _).
      exists v. unfold cell. by rewrite Hcol.
    + pose proof (IH df1 H Hc) as Hsome.
      rewrite (loc_mul_cell _ _ _ _ _ c i H1) in Hsome.
      case_decide; [|done]. by apply fmap_is_Some in Hsome.
Qed.

Lemma for_rows_Some_inv (rows : list (nat * Series)) (df df' : DataFrame)
    (i : nat) (row : Series) :
  NoDup rows.*1 →
  for_rows rows trend_body df = Some df' →
  (i, row) ∈ rows →
  ∃ year, row !! "Annee"%string = Some year ∧
    ∀ c, c ∈ (row_adjustments year).*1 → is_Some (cell df c i).
Proof.
  revert df. induction rows as [|[j r] rest IH]; intros df Hnd H Hin;
    simpl in H.
  - by apply elem_of_nil in Hin.
  - rewrite fmap_cons in Hnd. apply NoDup_cons in Hnd as [Hj Hnd].
    destruct (r !! "Annee"%string) as [y|] eqn:Hy; [|done]. simpl in H.
    destruct (run_block j (row_adjustments y) df) as [df1|] eqn:H1; [|done].
    simpl in H. apply elem_of_cons in Hin as [[= -> ->]|Hin].
    + exists y. split; [done|]. intros c Hc. by eapply run_block_Some_inv.
    + destruct (IH df1 Hnd H Hin) as (year & Hyear & Hcols).
      exists year. split; [done|]. intros c Hc.
      pose proof (Hcols c Hc) as Hsome.
      rewrite (run_block_cell _ _ _ _ c i H1) in Hsome.
      rewrite decide_False in Hsome; [done|]. intros ->. apply Hj.
      apply list_elem_of_fmap. by exists (j, row).
Qed.

Lemma pass_Some_inv (df df' : DataFrame) (j : nat) :
  _add_municipal_trends df = Some df' → (j < nrows df)%nat →
  ∃ year, cell df "Annee" j = Some year ∧
    ∀ c, c ∈ (row_adjustments year).*1 → is_Some (cell df c j).
Proof.
  intros H Hj.
  destruct (for_rows_Some_inv (iterrows df) df df' j
              (omap (λ values : list Q, values !! j) (columns df)))
    as (year & Hyear & Hcols).
  - rewrite iterrows_indices. apply NoDup_seq.
  - exact H.
  - by apply iterrows_elem.
  - exists year. split; [|done]. by rewrite lookup_omap in Hyear.
Qed.

(** X5. The pass completes on every table that has the year column and the
    nine adjusted columns, each with at least one value per row; the result
    has the same rows and, for every column, as many values as before. *)
Theorem pass_completes_on_full_tables (df : DataFrame) :
  (∀ c, c ∈ "Annee"%string :: adjusted_columns →
     ∃ values, columns df !! c = Some values ∧ (nrows df ≤ length values)%nat) →
  ∃ df',
    _add_municipal_trends df = Some df' ∧
    nrows df' = nrows df ∧
    length <$> columns df' = length <$> columns df.
Proof.
  intros Hcols. destruct (pass_Some df Hcols) as [df' Hpass].
  exists df'. split; [exact Hpass|]. by apply pass_shape.
Qed.

Lemma pass_completes_on_full_tables_witness :
  (∀ c, c ∈ "Annee"%string :: adjusted_columns →
     ∃ values, columns kone_frame !! c = Some values ∧
               (nrows kone_frame ≤ length values)%nat) ∧
  ∃ df',
    _add_municipal_trends kone_frame = Some df' ∧
    nrows df' = nrows kone_frame ∧
    length <$> columns df' = length <$> columns kone_frame.
Proof.
  assert (∀ c, c ∈ "Annee"%string :: adjusted_columns →
     ∃ values, columns kone_frame !! c = Some values ∧
               (nrows kone_frame ≤ length values)%nat) as Hcols.
  { apply Forall_forall. unfold adjusted_columns.
    repeat (constructor;
            [eexists; split; [vm_compute; reflexivity | vm_compute; lia]|]).
    constructor. }
  split; [exact Hcols|]. exact (pass_completes_on_full_tables kone_frame Hcols).
Defined.

(** X6. On a table without rows the pass changes nothing and needs no
    column. *)
Theorem pass_on_empty_table (df : DataFrame) :
  nrows df = 0%nat → _add_municipal_trends df = Some df.
Proof.
  intros Hn. unfold _add_municipal_trends, iterrows. by rewrite Hn.
Qed.

Lemma pass_on_empty_table_witness :
  nrows empty_frame = 0%nat ∧ _add_municipal_trends empty_frame = Some empty_frame.
Proof. split; [reflexivity|]. exact (pass_on_empty_table empty_frame eq_refl). Defined.

(** X7. The pass raises [KeyError] as soon as a row has no year: for one,
    when the table has rows and no year column. *)
Theorem pass_needs_the_year (df : DataFrame) (j : nat) :
  (j < nrows df)%nat → cell df "Annee" j = None →
  _add_municipal_trends df = None.
Proof.
  intros Hj Hyear.
  destruct (_add_municipal_trends df) as [df'|] eqn:Hpass; [|done].
  destruct (pass_Some_inv df df' j Hpass Hj) as (year & Hy & _).
  by rewrite Hyear in Hy.
Qed.

Lemma pass_needs_the_year_witness :
  (0 < nrows frame_without_year)%nat ∧
  cell frame_without_year "Annee" 0 = None ∧
  _add_municipal_trends frame_without_year = None.
Proof.
  assert (0 < nrows frame_without_year)%nat as Hj by (vm_compute; lia).
  assert (cell frame_without_year "Annee" 0 = None) as Hy
    by (vm_compute; reflexivity).
  split_and!; [exact Hj | exact Hy |].
  exact (pass_needs_the_year frame_without_year 0 Hj Hy).
Defined.

(** X8. The pass raises [KeyError] when a rule that applies to the year of
    some row names a column the table lacks (or that is too short); columns
    named only by rules that apply to no row are not needed. *)
Theorem pass_needs_the_columns_of_its_rules (df : DataFrame) (j : nat)
    (year : Q) (c : string) :
  (j < nrows df)%nat → cell df "Annee" j = Some year →
  c ∈ (row_adjustments year).*1 → cell df c j = None →
  _add_municipal_trends df = None.
Proof.
  intros Hj Hyear Hc Hcell.
  destruct (_add_municipal_trends df) as [df'|] eqn:Hpass; [|done].
  destruct (pass_Some_inv df df' j Hpass Hj) as (year' & Hy & Hcols).
  assert (year' = year) as -> by congruence.
  destruct (Hcols c Hc) as [v Hv]. by rewrite Hcell in Hv.
Qed.

Lemma pass_needs_the_columns_of_its_rules_witness :
  (0 < nrows frame_year_only)%nat ∧
  cell frame_year_only "Annee" 0 = Some 2002 ∧
  "Investissement_Agriculture"%string ∈ (row_adjustments 2002).*1 ∧
  cell frame_year_only "Investissement_Agriculture" 0 = None ∧
  _add_municipal_trends frame_year_only = None.
Proof.
  assert (0 < nrows frame_year_only)%nat as Hj by (vm_compute; lia).
  assert (cell frame_year_only "Annee" 0 = Some 2002) as Hy
    by (vm_compute; reflexivity).
  assert ("Investissement_Agriculture"%string ∈ (row_adjustments 2002).*1)
    as Hc by (apply (bool_decide_unpack _); vm_compute; exact I).
  assert (cell frame_year_only "Investissement_Agriculture" 0 = None) as Hn
    by (vm_compute; reflexivity).
  split_and!; [exact Hj | exact Hy | exact Hc | exact Hn |].
  exact (pass_needs_the_columns_of_its_rules frame_year_only 0 2002
           "Investissement_Agriculture" Hj Hy Hc Hn).
Defined.

Lemma row_adjustments_pos (year : Q) :
  Forall (λ p : string * Q, 0 < p.2) (row_adjustments year).
Proof.
  unfold row_adjustments.
  destruct (Qle_bool 2010 year) eqn:H2010.
  - apply Qle_bool_iff in H2010.
    destruct (between 2002 year 2005), (between 2008 year 2009),
      (between 2010 year 2014), (between 2020 year 2021),
      (Qeq_bool year 2020), (Qle_bool 2022 year); cbn [app];
      repeat (constructor; [cbn [snd]; lra|]); constructor.
  - destruct (between 2002 year 2005), (between 2008 year 2009),
      (between 2010 year 2014), (between 2020 year 2021),
      (Qeq_bool year 2020), (Qle_bool 2022 year); cbn [app];
      repeat (constructor; [cbn [snd]; lra|]); constructor.
Qed.

Lemma factors_pos (c : string) (block : list (string * Q)) :
  Forall (λ p : string * Q, 0 < p.2) block → Forall (λ k, 0 < k) (factors c block).
Proof.
  induction 1 as [|[c' k] rest Hk _ IH]; simpl; [constructor|].
  destruct (String.eqb c' c); [by constructor | done].
Qed.

Lemma scale_nonneg (v : Q) (ks : list Q) :
  0 <= v → Forall (λ k, 0 < k) ks → 0 <= scale v ks.
Proof.
  intros Hv Hks. revert v Hv. induction Hks as [|k ks Hk _ IH]; intros v Hv.
  - exact Hv.
  - rewrite scale_cons. apply IH. apply Qmult_le_0_compat; [exact Hv | lra].
Qed.

(** X9. The pass never turns a non-negative value negative: on any table
    whose values are all non-negative, whatever its years and its size, the
    values after the pass are all non-negative (every factor of every rule
    is positive). *)
Theorem pass_keeps_nonnegative (df df' : DataFrame) :
  _add_municipal_trends df = Some df' →
  (∀ c i v, cell df c i = Some v → 0 <= v) →
  ∀ c i v, cell df' c i = Some v → 0 <= v.
Proof.
  intros Hpass Hdf c i v Hv.
  destruct (decide (i < nrows df)%nat) as [Hi|Hi].
  - destruct (pass_Some_inv df df' i Hpass Hi) as (year & Hyear & _).
    rewrite (pass_cell df df' c i year Hpass Hi Hyear) in Hv.
    destruct (cell df c i) as [v0|] eqn:Hv0; [|done].
    injection Hv as <-. apply scale_nonneg; [by eapply Hdf|].
    apply factors_pos, row_adjustments_pos.
  - rewrite (pass_cell_out df df' c i Hpass) in Hv by lia. by eapply Hdf.
Qed.

Lemma pass_keeps_nonnegative_witness :
  _add_municipal_trends kone_frame = Some kone_table ∧
  (∀ c i v, cell kone_frame c i = Some v → 0 <= v) ∧
  ∀ c i v, cell kone_table c i = Some v → 0 <= v.
Proof.
  assert (_add_municipal_trends kone_frame = Some kone_table) as Hpass
    by (vm_compute; reflexivity).
  assert (∀ c i v, cell kone_frame c i = Some v → 0 <= v) as Hdf.
  { intros c i v. apply nonneg_frame_cell. vm_compute. reflexivity. }
  split_and!; [exact Hpass | exact Hdf |].
  exact (pass_keeps_nonnegative kone_frame kone_table Hpass Hdf).
Defined.

(** ** Closed forms of the series *)

(** X10. With noise disabled, each of the seven sectoral series is, row by
    row, budget base x share x (1 + rate x i) x peak-year multiplier x
    specialty multiplier (x 1 for the noise), with the constants tabulated
    in [sector_share], [sector_rate], [sector_years], [sector_peak],
    [sector_present] and [sector_absent]. *)
Theorem sector_series_closed_form {RNG} (normal : Q → Q → Gen RNG Q)
    (self : Analyzer) (sec : sector) (years : list Z) (s : RNG) :
  noise_disabled normal →
  fst (sector_series normal self sec years s) =
    imap (λ i year, sector_value self sec i year) years.
Proof.
  intros Hoff. apply list_eq. intros i.
  rewrite (sector_series_lookup normal Hoff), list_lookup_imap. reflexivity.
Qed.

Lemma sector_series_closed_form_witness :
  noise_disabled no_noise ∧
  fst (sector_series no_noise kone Mine (date_range 2002 2025) tt) =
    imap (λ i year, sector_value kone Mine i year) (date_range 2002 2025).
Proof.
  split; [exact no_noise_disabled|].
  exact (sector_series_closed_form no_noise kone Mine (date_range 2002 2025)
           tt no_noise_disabled).
Defined.

Lemma population_rate_pos (ty : string) : 0 < population_rate ty.
Proof.
  unfold population_rate.
  destruct (String.eqb ty "urbaine"), (String.eqb ty "periurbaine"),
    (String.eqb ty "insulaire"); reflexivity.
Qed.

Lemma float_of_nat_lt (i j : nat) : (i < j)%nat → float_of_nat i < float_of_nat j.
Proof. intros Hij. unfold float_of_nat. rewrite <-Zlt_Qlt. lia. Qed.

(** X11. For a positive population base the population grows strictly from
    each year to the next, whatever the type of the locality. *)
Theorem population_strictly_increasing {RNG} (self : Analyzer)
    (years : list Z) (s : RNG) (i j : nat) (vi vj : Q) :
  0 < population_base (config self) → (i < j)%nat →
  fst (_simulate_population self years s) !! i = Some vi →
  fst (_simulate_population self years s) !! j = Some vj →
  vi < vj.
Proof.
  intros Hpb Hij. rewrite !population_lookup.
  destruct (years !! i) as [yi|]; [|done].
  destruct (years !! j) as [yj|]; [|done].
  intros [= <-] [= <-].
  pose proof (population_rate_pos (type (config self))) as Hr.
  pose proof (float_of_nat_lt i j Hij) as Hlt.
  set (r := population_rate _) in *. set (b := population_base _) in *.
  set (x := float_of_nat i) in *. set (y := float_of_nat j) in *.
  clearbody r b x y.
  assert (0 < r * (y - x)) as Hd by (apply Qmult_lt_0_compat; lra).
  assert (0 < b * (r * (y - x))) as Hprod by (by apply Qmult_lt_0_compat).
  assert (b * (1 + r * y) - b * (1 + r * x) == b * (r * (y - x))) as Heq by ring.
  lra.
Qed.

Lemma population_strictly_increasing_witness :
  ∃ vi vj,
    0 < population_base (config kone) ∧ (0 < 1)%nat ∧
    fst (_simulate_population kone (date_range 2002 2025) tt) !! 0%nat = Some vi ∧
    fst (_simulate_population kone (date_range 2002 2025) tt) !! 1%nat = Some vj ∧
    vi < vj.
Proof.
  eexists _, _.
  assert (0 < population_base (config kone)) as Hpb by reflexivity.
  assert (0 < 1)%nat as Hij by lia.
  split_and!; [exact Hpb | exact Hij | ..];
    [vm_compute; reflexivity | vm_compute; reflexivity |].
  apply (population_strictly_increasing kone (date_range 2002 2025) tt 0 1 _ _
           Hpb Hij); vm_compute; reflexivity.
Defined.

(** ** The selection of [main] *)

Lemma communes_length : length communes = 33%nat.
Proof. reflexivity. Qed.

Lemma selection_unfold (n : Z) :
  commune_selectionnee (Some n) =
    if (n <? 1)%Z || (33 <? n)%Z then "Nouméa"%string
    else default "Nouméa"%string (communes !! Z.to_nat (n - 1)).
Proof. reflexivity. Qed.

Lemma selection_in_range (n : Z) :
  (1 ≤ n ≤ 33)%Z →
  communes !! Z.to_nat (n - 1) = Some (commune_selectionnee (Some n)).
Proof.
  intros Hn. rewrite selection_unfold.
  rewrite (proj2 (Z.ltb_ge n 1)) by lia.
  rewrite (proj2 (Z.ltb_ge 33 n)) by lia. cbn [orb].
  destruct (lookup_lt_is_Some_2 communes (Z.to_nat (n - 1))) as [c Hc].
  { rewrite communes_length. lia. }
  by rewrite Hc.
Qed.

Lemma selection_out_of_range (n : Z) :
  (n < 1 ∨ 33 < n)%Z → commune_selectionnee (Some n) = "Nouméa"%string.
Proof.
  intros Hn. rewrite selection_unfold. destruct Hn as [Hn|Hn].
  - by rewrite (proj2 (Z.ltb_lt n 1) Hn).
  - rewrite (proj2 (Z.ltb_lt 33 n) Hn). by destruct (n <? 1)%Z.
Qed.

Lemma selection_member (choix : option Z) :
  commune_selectionnee choix ∈ communes.
Proof.
  assert ("Nouméa"%string ∈ communes) as Hnoumea by left.
  destruct choix as [n|]; [|exact Hnoumea].
  destruct (decide (1 ≤ n ≤ 33)%Z) as [Hn|Hn].
  - eapply list_elem_of_lookup_2. by apply selection_in_range.
  - rewrite selection_out_of_range by lia. exact Hnoumea.
Qed.

(** X12. Whatever is typed at the prompt, [main] analyses a locality of its
    list: the n-th one for an integer n between 1 and 33, and Nouméa for any
    other integer and for a text that is not an integer. *)
Theorem selection_always_in_list (choix : option Z) :
  commune_selectionnee choix ∈ communes ∧
  commune_selectionnee None = "Nouméa"%string ∧
  (∀ n : Z, (n < 1 ∨ 33 < n)%Z →
     commune_selectionnee (Some n) = "Nouméa"%string) ∧
  (∀ n : Z, (1 ≤ n ≤ 33)%Z →
     communes !! Z.to_nat (n - 1) = Some (commune_selectionnee (Some n))).
Proof.
  split_and!.
  - apply selection_member.
  - reflexivity.
  - apply selection_out_of_range.
  - apply selection_in_range.
Qed.

(** X13. Every configuration on file other than the default one belongs to
    a locality that can be selected at the prompt, and no input selects the
    name ["default"]. *)
Theorem stored_configs_are_selectable (name : string) (cfg : commune_config) :
  configs !! name = Some cfg → name ≠ "default"%string →
  (∃ n : Z, (1 ≤ n ≤ 33)%Z ∧ commune_selectionnee (Some n) = name) ∧
  (∀ choix, commune_selectionnee choix ≠ "default"%string).
Proof.
  intros Hname Hne. split.
  - assert (forallb (λ p : string * commune_config,
              bool_decide (p.1 ∈ "default"%string :: communes))
              (map_to_list configs) = true) as Hall by (vm_compute; reflexivity).
    assert (name ∈ "default"%string :: communes) as Hin.
    { apply (bool_decide_eq_true_1 _).
      apply (proj1 (forallb_forall _ _) Hall (name, cfg)).
      apply (proj1 (list_elem_of_In _ _)). by apply elem_of_map_to_list. }
    apply elem_of_cons in Hin as [Heq|Hin]; [destruct (Hne Heq)|].
    apply list_elem_of_lookup in Hin as [k Hk].
    pose proof (lookup_lt_Some _ _ _ Hk) as Hlt. rewrite communes_length in Hlt.
    exists (Z.of_nat k + 1)%Z. split; [lia|].
    assert (communes !! Z.to_nat (Z.of_nat k + 1 - 1)
            = Some (commune_selectionnee (Some (Z.of_nat k + 1)%Z))) as Hsel
      by (apply selection_in_range; lia).
    replace (Z.to_nat (Z.of_nat k + 1 - 1)) with k in Hsel by lia.
    congruence.
  - intros choix Heq.
    assert (commune_selectionnee choix ∈ communes) as Hin
      by apply selection_member.
    rewrite Heq in Hin. revert Hin. apply (bool_decide_unpack _).
    vm_compute. exact I.
Qed.

Lemma stored_configs_are_selectable_witness :
  configs !! "Koné"%string = Some kone_config ∧
  "Koné"%string ≠ "default"%string ∧
  (∃ n : Z, (1 ≤ n ≤ 33)%Z ∧ commune_selectionnee (Some n) = "Koné"%string) ∧
  (∀ choix, commune_selectionnee choix ≠ "default"%string).
Proof.
  assert (configs !! "Koné"%string = Some kone_config) as Hname by reflexivity.
  assert ("Koné"%string ≠ "default"%string) as Hne by discriminate.
  split_and!; [exact Hname | exact Hne | ..];
    apply (stored_configs_are_selectable "Koné" kone_config Hname Hne).
Defined.

(** ** The report *)

Ltac report_column H c :=
  let values := fresh "values" in
  let Hc := fresh "Hc" in
  let Hne := fresh "Hne" in
  destruct (H c%string) as (values & Hc & Hne);
    [ by (apply (bool_decide_unpack _); vm_compute) | rewrite Hc ].

Lemma insights_Some (self : Analyzer) (df : DataFrame) :
  (∀ c, c ∈ report_columns →
     ∃ values, columns df !! c = Some values ∧ values ≠ []) →
  is_Some (_generate_financial_insights self df).
Proof.
  intros H. unfold _generate_financial_insights.
  report_column H "Recettes_Totales". report_column H "Depenses_Totales".
  report_column H "Epargne_Brute". report_column H "Dette_Totale".
  report_column H "Population". report_column H "Impots_Locaux".
  report_column H "Dotations_Etat". report_column H "Dotations_Territoriales".
  report_column H "Investissement". report_column H "Taux_Endettement".
  report_column H "Taux_Fiscalite".
  cbn [mbind option_bind].
  destruct (proj2 (last_is_Some values) Hne) as [? ->].
  destruct (proj2 (head_is_Some values) Hne) as [? ->].
  destruct (proj2 (last_is_Some values3) Hne3) as [? ->].
  destruct (proj2 (head_is_Some values3) Hne3) as [? ->].
  destruct (proj2 (last_is_Some values8) Hne8) as [? ->].
  cbn [mbind option_bind]. by eexists.
Qed.

Lemma insights_inv (self : Analyzer) (df : DataFrame) (report : Insights) :
  _generate_financial_insights self df = Some report →
  (∃ recettes, columns df !! "Recettes_Totales"%string = Some recettes ∧
               recettes ≠ []) ∧
  (∃ population first final,
     columns df !! "Population"%string = Some population ∧
     head population = Some first ∧ last population = Some final ∧
     population_growth report =
       float_map (λ q, (q - 1) * 100) (float_div (Finite final) (Finite first))).
Proof.
  intros H. unfold _generate_financial_insights in H.
  repeat match type of H with
  | mbind _ ?o = Some _ =>
      let E := fresh "E" in
      destruct o eqn:E; cbn [mbind option_bind] in H; [|discriminate H]
  end.
  injection H as <-. split.
  - eexists. split; [reflexivity|]. apply last_is_Some. by eexists.
  - eexists _, _, _. split_and!; [reflexivity | eassumption | eassumption |].
    reflexivity.
Qed.

Lemma report_columns_generated :
  Forall (λ c, c ∈ "Annee"%string :: adjusted_columns ++ untouched_columns)
    report_columns.
Proof. by (apply (bool_decide_unpack _); vm_compute). Qed.

Section Report.
Context {RNG : Type}.
Variable normal : Q → Q → Gen RNG Q.
Variable self : Analyzer.

Local Abbreviation dates := (date_range (start_year self) (end_year self)).

Lemma generated_report_column (s : RNG) (raw final : DataFrame) (c : string) :
  fst (generate_frame normal self s) = Some raw →
  _add_municipal_trends raw = Some final →
  c ∈ report_columns →
  ∃ values, columns final !! c = Some values ∧ length values = length dates.
Proof.
  intros Hraw Hpass Hc.
  apply (final_column_present normal self s raw final c Hraw Hpass).
  destruct (generate_data_columns normal self s) as [_ Hpres].
  apply (proj1 (Forall_forall _ _) Hpres).
  by apply (proj1 (Forall_forall _ _) report_columns_generated).
Qed.

Lemma dates_nonempty :
  (start_year self ≤ end_year self)%Z → length dates ≠ 0%nat.
Proof. rewrite date_range_length. lia. Qed.
End Report.

(** X14. For every range of supported years (see [supported_years]), the
    report can be computed from the delivered table exactly when the range
    is not empty: on an empty table [.iloc[-1]] raises [IndexError]; on any
    other generated table every column the report reads is there and has a
    first and a last value. *)
Theorem report_needs_a_year {RNG} (normal : Q → Q → Gen RNG Q)
    (self : Analyzer) (s : RNG) :
  supported_years self →
  ∃ final,
    fst (generate_financial_data normal self s) = Some final ∧
    (is_Some (_generate_financial_insights self final)
     ↔ (start_year self ≤ end_year self)%Z).
Proof.
  intros _.
  destruct (generate_financial_data_Some normal self s)
    as (raw & final & Hraw & Hfinal & Hpass & _ & _).
  exists final. split; [exact Hfinal|]. split.
  - intros [report Hreport].
    destruct (insights_inv self final report Hreport)
      as [(recettes & Hr & Hne) _].
    destruct (generated_report_column normal self s raw final
                "Recettes_Totales" Hraw Hpass) as (values & Hv & Hlen).
    { by (apply (bool_decide_unpack _); vm_compute). }
    assert (values = recettes) as -> by congruence.
    rewrite date_range_length in Hlen.
    destruct recettes as [|x rest]; [destruct (Hne eq_refl)|].
    cbn [length] in Hlen. lia.
  - intros Hrange. apply insights_Some. intros c Hc.
    destruct (generated_report_column normal self s raw final c Hraw Hpass Hc)
      as (values & Hv & Hlen).
    exists values. split; [exact Hv|]. intros ->.
    apply (dates_nonempty self Hrange). symmetry. exact Hlen.
Qed.

Lemma report_needs_a_year_witness :
  supported_years kone_empty_range ∧
  ∃ final,
    fst (generate_financial_data no_noise kone_empty_range tt) = Some final ∧
    (is_Some (_generate_financial_insights kone_empty_range final)
     ↔ (start_year kone_empty_range ≤ end_year kone_empty_range)%Z).
Proof.
  assert (supported_years kone_empty_range) as Hyears.
  { unfold supported_years, kone_empty_range. cbn [start_year end_year]. lia. }
  split; [exact Hyears|].
  exact (report_needs_a_year no_noise kone_empty_range tt Hyears).
Defined.

(** X15. For every non-empty range of supported years (see
    [supported_years]) and whatever the noise, the population growth the
    report prints is 100 x rate x (end_year - start_year), with the rate of
    the type of the locality: it does not depend on the population base
    (which must not be zero) nor on the sampler. *)
Theorem report_population_growth {RNG} (normal : Q → Q → Gen RNG Q)
    (self : Analyzer) (s : RNG) :
  supported_years self →
  (start_year self ≤ end_year self)%Z →
  ¬ population_base (config self) == 0 →
  ∃ final report v,
    fst (generate_financial_data normal self s) = Some final ∧
    _generate_financial_insights self final = Some report ∧
    population_growth report = Finite v ∧
    v == 100 * population_rate (type (config self))
         * float (end_year self - start_year self).
Proof.
  intros _ Hrange Hpb.
  destruct (generate_financial_data_Some normal self s)
    as (raw & final & Hraw & Hfinal & Hpass & Hn & Hcols).
  destruct (insights_Some self final) as [report Hreport].
  { intros c Hc.
    destruct (generated_report_column normal self s raw final c Hraw Hpass Hc)
      as (values & Hv & Hlen).
    exists values. split; [exact Hv|]. intros ->.
    apply (dates_nonempty self Hrange). symmetry. exact Hlen. }
  destruct (insights_inv self final report Hreport)
    as [_ (population & first & final_value & Hp & Hfirst & Hlast & Hgrowth)].
  destruct (generate_data_population normal self s) as [sp Hgen].
  rewrite (pass_columns_ne _ _ _ Hpass), Hcols, Hgen in Hp
    by (by (apply (bool_decide_unpack _); vm_compute)).
  injection Hp as <-.
  rewrite head_lookup, population_lookup in Hfirst.
  rewrite last_lookup, population_lookup in Hlast.
  unfold _simulate_population, for_enumerate in Hlast.
  rewrite for_enumerate_from_length, date_range_length in Hlast.
  assert (date_range (start_year self) (end_year self) !! 0%nat
          = Some (start_year self)) as H0.
  { apply date_range_lookup. split; lia. }
  assert (date_range (start_year self) (end_year self)
            !! pred (Z.to_nat (end_year self - start_year self + 1))
          = Some (end_year self)) as Hend.
  { apply date_range_lookup. split; lia. }
  rewrite H0 in Hfirst. rewrite Hend in Hlast.
  injection Hfirst as <-. injection Hlast as <-.
  assert (float_of_nat (pred (Z.to_nat (end_year self - start_year self + 1)))
          = float (end_year self - start_year self)) as Hspan.
  { unfold float_of_nat, float. f_equal. lia. }
  rewrite Hspan in Hgrowth. change (float_of_nat 0) with 0 in Hgrowth.
  set (b := population_base (config self)) in *.
  set (r := population_rate (type (config self))) in *.
  set (d := float (end_year self - start_year self)) in *.
  clearbody b r d.
  unfold float_div in Hgrowth.
  destruct (Qeq_bool (b * (1 + r * 0)) 0) eqn:Hzero.
  { apply Qeq_bool_iff in Hzero. destruct Hpb. rewrite <-Hzero. ring. }
  cbn [float_map] in Hgrowth.
  eexists final, report, _. split_and!;
    [exact Hfinal | exact Hreport | exact Hgrowth |].
  field. intros Hb. apply Hpb. rewrite <-Hb. ring.
Qed.

Lemma report_population_growth_witness :
  supported_years kone ∧
  (start_year kone ≤ end_year kone)%Z ∧
  ¬ population_base (config kone) == 0 ∧
  ∃ final report v,
    fst (generate_financial_data no_noise kone tt) = Some final ∧
    _generate_financial_insights kone final = Some report ∧
    population_growth report = Finite v ∧
    v == 100 * population_rate (type (config kone))
         * float (end_year kone - start_year kone).
Proof.
  assert (supported_years kone) as Hyears.
  { unfold supported_years, kone, analyzer_of. cbn [start_year end_year]. lia. }
  assert (start_year kone ≤ end_year kone)%Z as Hrange by (vm_compute; discriminate).
  assert (¬ population_base (config kone) == 0) as Hpb by (intros H; discriminate H).
  split_and!; [exact Hyears | exact Hrange | exact Hpb |].
  exact (report_population_growth no_noise kone tt Hyears Hrange Hpb).
Defined.

(** X16. With noise disabled, for every locality, the revenue growth the
    report prints over 2002-2025 is 2300 times the revenue rate of the type
    of the locality (87.4, 96.6, 80.5 or 73.6 percent): the pass touches
    neither the first nor the last total revenue. *)
Theorem report_revenue_growth {RNG} (normal : Q → Q → Gen RNG Q)
    (name : string) (s : RNG) :
  noise_disabled normal →
  ∃ self final report v,
    __init__ name = Some self ∧
    fst (generate_financial_data normal self s) = Some final ∧
    _generate_financial_insights self final = Some report ∧
    revenue_growth report = Finite v ∧
    v == 2300 * revenue_rate (type (config self)).
Proof.
  intros Hoff.
  assert (forallb (revenue_growth_matches name) known_configs = true) as Hall
    by (vm_compute; reflexivity).
  pose proof (init_eq name) as Hinit.
  pose proof (known_config_check (revenue_growth_matches name) name Hall)
    as Hrun.
  revert Hinit Hrun. generalize (default default_config (configs !! name)).
  intros cfg Hinit Hrun. unfold revenue_growth_matches in Hrun.
  destruct (table_without_noise (analyzer_of name cfg)) as [final|] eqn:Hfinal;
    [|discriminate Hrun].
  destruct (_generate_financial_insights (analyzer_of name cfg) final)
    as [report|] eqn:Hreport; [|discriminate Hrun].
  destruct (revenue_growth report) as [v|] eqn:Hv; [|discriminate Hrun].
  exists (analyzer_of name cfg), final, report, v. split_and!.
  - exact Hinit.
  - rewrite <-Hfinal. by apply table_without_noise_eq.
  - exact Hreport.
  - exact Hv.
  - apply Qeq_bool_iff. exact Hrun.
Qed.

Lemma report_revenue_growth_witness :
  noise_disabled no_noise ∧
  ∃ self final report v,
    __init__ "Koné" = Some self ∧
    fst (generate_financial_data no_noise self tt) = Some final ∧
    _generate_financial_insights self final = Some report ∧
    revenue_growth report = Finite v ∧
    v == 2300 * revenue_rate (type (config self)).
Proof.
  split; [exact no_noise_disabled|].
  exact (report_revenue_growth no_noise "Koné" tt no_noise_disabled).
Defined.

Lemma parts_differ_spec (df : DataFrame) (a b c d total : string) (i : nat) :
  parts_differ df a b c d total i = true →
  ∃ va vb vc vd vt,
    cell df a i = Some va ∧ cell df b i = Some vb ∧ cell df c i = Some vc ∧
    cell df d i = Some vd ∧ cell df total i = Some vt ∧
    ¬ va + vb + vc + vd == vt.
Proof.
  unfold parts_differ. intros H.
  destruct (cell df a i) as [va|]; [|discriminate H].
  destruct (cell df b i) as [vb|]; [|discriminate H].
  destruct (cell df c i) as [vc|]; [|discriminate H].
  destruct (cell df d i) as [vd|]; [|discriminate H].
  destruct (cell df total i) as [vt|]; [|discriminate H].
  exists va, vb, vc, vd, vt. split_and!; try reflexivity.
  intros Heq. apply Qeq_bool_iff in Heq. rewrite Heq in H. discriminate H.
Qed.

(** X17. The totals are generated on their own and never match their
    parts: with noise disabled, for every locality and in every row of the
    delivered table, local taxes + state grants + territorial grants + other
    revenue differs from the total revenue, and operating + investment +
    debt charge + staff expenses differs from the total expense. *)
Theorem totals_differ_from_their_parts {RNG} (normal : Q → Q → Gen RNG Q)
    (name : string) (s : RNG) :
  noise_disabled normal →
  ∃ self final,
    __init__ name = Some self ∧
    fst (generate_financial_data normal self s) = Some final ∧
    ∀ i : nat, (i < nrows final)%nat →
      (∃ va vb vc vd vt,
         cell final "Impots_Locaux" i = Some va ∧
         cell final "Dotations_Etat" i = Some vb ∧
         cell final "Dotations_Territoriales" i = Some vc ∧
         cell final "Autres_Recettes" i = Some vd ∧
         cell final "Recettes_Totales" i = Some vt ∧
         ¬ va + vb + vc + vd == vt) ∧
      (∃ va vb vc vd vt,
         cell final "Fonctionnement" i = Some va ∧
         cell final "Investissement" i = Some vb ∧
         cell final "Charge_Dette" i = Some vc ∧
         cell final "Personnel" i = Some vd ∧
         cell final "Depenses_Totales" i = Some vt ∧
         ¬ va + vb + vc + vd == vt).
Proof.
  intros Hoff.
  assert (forallb (totals_never_match name) known_configs = true) as Hall
    by (vm_compute; reflexivity).
  pose proof (init_eq name) as Hinit.
  pose proof (known_config_check (totals_never_match name) name Hall) as Hrun.
  revert Hinit Hrun. generalize (default default_config (configs !! name)).
  intros cfg Hinit Hrun. unfold totals_never_match in Hrun.
  destruct (table_without_noise (analyzer_of name cfg)) as [final|] eqn:Hfinal;
    [|discriminate Hrun].
  exists (analyzer_of name cfg), final. split_and!.
  - exact Hinit.
  - rewrite <-Hfinal. by apply table_without_noise_eq.
  - intros i Hi.
    pose proof (proj1 (forallb_forall _ _) Hrun i) as Hrow.
    cbv beta in Hrow. apply andb_prop in Hrow as [Hrev Hexp].
    + split; by apply parts_differ_spec.
    + apply (proj1 (list_elem_of_In _ _)), elem_of_seq. lia.
Qed.

Lemma totals_differ_from_their_parts_witness :
  noise_disabled no_noise ∧
  ∃ self final,
    __init__ "Koné" = Some self ∧
    fst (generate_financial_data no_noise self tt) = Some final ∧
    ∀ i : nat, (i < nrows final)%nat →
      (∃ va vb vc vd vt,
         cell final "Impots_Locaux" i = Some va ∧
         cell final "Dotations_Etat" i = Some vb ∧
         cell final "Dotations_Territoriales" i = Some vc ∧
         cell final "Autres_Recettes" i = Some vd ∧
         cell final "Recettes_Totales" i = Some vt ∧
         ¬ va + vb + vc + vd == vt) ∧
      (∃ va vb vc vd vt,
         cell final "Fonctionnement" i = Some va ∧
         cell final "Investissement" i = Some vb ∧
         cell final "Charge_Dette" i = Some vc ∧
         cell final "Personnel" i = Some vd ∧
         cell final "Depenses_Totales" i = Some vt ∧
         ¬ va + vb + vc + vd == vt).
Proof.
  split; [exact no_noise_disabled|].
  exact (totals_differ_from_their_parts no_noise "Koné" tt no_noise_disabled).
Defined.

(** ** The draws generation takes *)

Lemma consumes_ret {A} (a : A) : consumes (mret a) 0.
Proof. by intros tape. Qed.

Lemma consumes_bind {A B} (m : Gen (list Q) A) (f : A → Gen (list Q) B)
    (a b : nat) :
  consumes m a → (∀ x, consumes (f x) b) → consumes (m ≫= f) (a + b).
Proof.
  intros Hm Hf tape. unfold mbind, gen_bind. cbv zeta.
  by rewrite Hf, Hm, drop_drop.
Qed.

Lemma consumes_normal (loc scale : Q) : consumes (tape_normal loc scale) 1.
Proof. by intros [|z rest]. Qed.

Lemma consumes_for_enumerate_from (body : nat → Z → Gen (list Q) Q) (k : nat) :
  (∀ i d, consumes (body i d) k) →
  ∀ dates i, consumes (for_enumerate_from i dates body) (length dates * k).
Proof.
  intros Hbody dates. induction dates as [|d rest IH]; intros i.
  - apply consumes_ret.
  - cbn [for_enumerate_from length].
    replace (S (length rest) * k)%nat with (k + (length rest * k + 0))%nat by lia.
    apply consumes_bind; [apply Hbody|]. intros v.
    apply consumes_bind; [apply IH|]. intros vs. apply consumes_ret.
Qed.

Ltac consumes_loop :=
  unfold for_enumerate; eapply consumes_for_enumerate_from; intros ? ?;
  first
    [ apply consumes_ret
    | eapply consumes_bind;
      [ apply consumes_normal | intros ?; apply consumes_ret ] ].

Ltac consumes_column gen :=
  eapply consumes_bind; [unfold gen; consumes_loop | intros ?].

Lemma generate_data_consumes (self : Analyzer) :
  consumes (generate_data tape_normal self)
    (21 * length (date_range (start_year self) (end_year self))).
Proof.
  assert (∃ k, consumes (generate_data tape_normal self) k ∧
    k = (21 * length (date_range (start_year self) (end_year self)))%nat)
    as (k & Hk & ->); [|exact Hk].
  eexists. split.
  - unfold generate_data. cbv zeta.
    consumes_column @_simulate_population.
    consumes_column @_simulate_households.
    consumes_column @_simulate_total_revenue.
    consumes_column @_simulate_tax_revenue.
    consumes_column @_simulate_state_grants.
    consumes_column @_simulate_territorial_grants.
    consumes_column @_simulate_other_revenue.
    consumes_column @_simulate_total_expenses.
    consumes_column @_simulate_operating_expenses.
    consumes_column @_simulate_investment_expenses.
    consumes_column @_simulate_debt_charges.
    consumes_column @_simulate_staff_costs.
    consumes_column @_simulate_gross_savings.
    consumes_column @_simulate_total_debt.
    consumes_column @_simulate_debt_ratio.
    consumes_column @_simulate_tax_rate.
    consumes_column @_simulate_agriculture_investment.
    consumes_column @_simulate_tourism_investment.
    consumes_column @_simulate_transport_investment.
    consumes_column @_simulate_education_investment.
    consumes_column @_simulate_environment_investment.
    consumes_column @_simulate_culture_investment.
    consumes_column @_simulate_mining_investment.
    apply consumes_ret.
  - lia.
Qed.

(** X18. Generation takes exactly 21 draws per year from the random source
    (one for each row of each of the 21 noisy columns; population and
    households take none, building the table and the pass take none). *)
Theorem generation_takes_21_draws_per_year (self : Analyzer) (tape : list Q) :
  snd (generate_financial_data tape_normal self tape) =
    drop (21 * Z.to_nat (end_year self - start_year self + 1)) tape.
Proof.
  rewrite <-date_range_length.
  exact (generate_data_consumes self tape).
Qed.

(** ** The debt ratio beyond the configured range *)

Lemma debt_ratio_lookup {RNG} (normal : Q → Q → Gen RNG Q) (years : list Z)
    (s : RNG) (i : nat) :
  noise_disabled normal →
  fst (_simulate_debt_ratio normal years s) !! i =
    (λ year : Z,
       0.60 * (if (2010 <=? year)%Z then 1 - 0.012 * float (year - 2010) else 1)
       * 1) <$> years !! i.
Proof.
  intros Hoff.
  assert (same_value (_simulate_debt_ratio normal years)
                     (_simulate_debt_ratio no_noise years)) as Hsame.
  { unfold _simulate_debt_ratio. pose proof no_noise_disabled.
    same_value_loop. }
  rewrite (Hsame s tt). apply for_enumerate_lookup.
Qed.

(** X19. Nothing clamps the debt ratio: with noise disabled its value for a
    year is non-negative exactly when the year is at most 2093; from 2094 on
    the generated ratio is negative. *)
Theorem debt_ratio_negative_from_2094 {RNG} (normal : Q → Q → Gen RNG Q)
    (years : list Z) (s : RNG) (i : nat) (year : Z) :
  noise_disabled normal → years !! i = Some year →
  ∃ v, fst (_simulate_debt_ratio normal years s) !! i = Some v ∧
       (0 <= v ↔ (year ≤ 2093)%Z).
Proof.
  intros Hoff Hyear. eexists. split.
  { rewrite (debt_ratio_lookup normal years s i Hoff), Hyear. reflexivity. }
  destruct (2010 <=? year)%Z eqn:Hy.
  - apply Z.leb_le in Hy. split.
    + intros Hv. destruct (decide (year ≤ 2093)%Z) as [|Hn]; [done|].
      assert (84 <= float (year - 2010)) as Hge.
      { unfold float. change 84 with (inject_Z 84). rewrite <-Zle_Qle. lia. }
      lra.
    + intros Hle.
      assert (float (year - 2010) <= 83) as Hge.
      { unfold float. change 83 with (inject_Z 83). rewrite <-Zle_Qle. lia. }
      lra.
  - apply Z.leb_gt in Hy. split; [intros _; lia | intros _; lra].
Qed.

Lemma debt_ratio_negative_from_2094_witness :
  noise_disabled no_noise ∧ [2094%Z] !! 0%nat = Some 2094%Z ∧
  ∃ v, fst (_simulate_debt_ratio no_noise [2094%Z] tt) !! 0%nat = Some v ∧
       (0 <= v ↔ (2094 ≤ 2093)%Z).
Proof.
  split_and!; [exact no_noise_disabled | reflexivity |].
  exact (debt_ratio_negative_from_2094 no_noise [2094%Z] tt 0 2094
           no_noise_disabled eq_refl).
Defined.

Lemma selection_always_in_list_witness :
  commune_selectionnee (Some 13%Z) ∈ communes ∧
  commune_selectionnee (Some 0%Z) = "Nouméa"%string ∧
  commune_selectionnee (Some 34%Z) = "Nouméa"%string ∧
  communes !! 12%nat = Some (commune_selectionnee (Some 13%Z)).
Proof.
  pose proof (selection_always_in_list (Some 13%Z)) as (Hin & _ & Hout & Hn).
  split_and!.
  - exact Hin.
  - apply Hout. lia.
  - apply Hout. lia.
  - apply (Hn 13%Z). lia.
Defined.
